(** * analyze_gitlab_comments: a shallow embedding and its properties

    The development follows [src/analyze_gitlab_comments.py].  Python
    [str] values are modelled as [string]; a character is a code point
    below 256.  Python [int] values are modelled as [Z].  A raised
    exception is an explicit [Raise] result. *)

From Stdlib Require Import ZArith List Bool Lia Ascii String.
From Stdlib Require Import Sorting.Sorted Sorting.Permutation.
From Stdlib Require Import Numbers.DecimalString.
Import ListNotations.

Open Scope string_scope.
Open Scope Z_scope.

(** ** Exceptions and fallible results *)

Inductive exn : Type :=
| TypeError
| IndexError
| ValueError (literal : string)
| KeyError (key : string)
| Exception (text : string).

Inductive result (A : Type) : Type :=
| Ok (a : A)
| Raise (e : exn).

Arguments Ok {A} a.
Arguments Raise {A} e.

Definition bind {A B : Type} (r : result A) (k : A -> result B) : result B :=
  match r with
  | Ok a => k a
  | Raise e => Raise e
  end.

Notation "x <- r ;; k" := (bind r (fun x => k))
  (at level 61, r at next level, right associativity).

(** ** The string operations of Python the program uses *)

Module Py.

(** [s.split(sep)] for a one-character separator: empty fields are
    kept and the result always has at least one element. *)
Fixpoint split (sep : ascii) (s : string) : list string :=
  match s with
  | EmptyString => [EmptyString]
  | String c rest =>
      if Ascii.eqb c sep then EmptyString :: split sep rest
      else match split sep rest with
           | [] => [String c EmptyString]
           | w :: ws => String c w :: ws
           end
  end.

(** [sep.join(parts)]. *)
Definition join (sep : string) (parts : list string) : string :=
  String.concat sep parts.

(** [s.startswith(p)]. *)
Definition startswith (s p : string) : bool := String.prefix p s.

(** [s[1:]]: the empty string stays empty. *)
Definition tail (s : string) : string :=
  match s with
  | EmptyString => EmptyString
  | String _ rest => rest
  end.

Definition code (c : ascii) : Z := Z.of_N (N_of_ascii c).

(** [str.isspace] on one character, for the code points below 256. *)
Definition isspace (c : ascii) : bool :=
  let n := code c in
  ((9 <=? n) && (n <=? 13)) || ((28 <=? n) && (n <=? 32))
  || (n =? 133) || (n =? 160).

Fixpoint lstrip (s : string) : string :=
  match s with
  | EmptyString => EmptyString
  | String c rest => if isspace c then lstrip rest else s
  end.

Fixpoint rstrip (s : string) : string :=
  match s with
  | EmptyString => EmptyString
  | String c rest =>
      match rstrip rest with
      | EmptyString => if isspace c then EmptyString else String c EmptyString
      | kept => String c kept
      end
  end.

(** [s.strip()]. *)
Definition strip (s : string) : string := rstrip (lstrip s).

Definition isdigit (c : ascii) : bool :=
  let n := code c in (48 <=? n) && (n <=? 57).

(** The white space [int] skips around a literal: the C-locale space
    characters, and the two non-ASCII spaces below 256, which the
    conversion first rewrites to a blank. *)
Definition int_space (c : ascii) : bool :=
  let n := code c in
  ((9 <=? n) && (n <=? 13)) || (n =? 32) || (n =? 133) || (n =? 160).

Fixpoint int_lstrip (s : string) : string :=
  match s with
  | EmptyString => EmptyString
  | String c rest => if int_space c then int_lstrip rest else s
  end.

Fixpoint int_rstrip (s : string) : string :=
  match s with
  | EmptyString => EmptyString
  | String c rest =>
      match int_rstrip rest with
      | EmptyString => if int_space c then EmptyString else String c EmptyString
      | kept => String c kept
      end
  end.

(** Decimal digits with single underscores between digits. *)
Fixpoint int_digits (s : string) (acc : Z) (after_digit : bool) : option Z :=
  match s with
  | EmptyString => if after_digit then Some acc else None
  | String c rest =>
      if isdigit c then int_digits rest (10 * acc + (code c - 48)) true
      else if Ascii.eqb c "_"%char && after_digit then
        match rest with
        | String d _ => if isdigit d then int_digits rest acc false else None
        | EmptyString => None
        end
      else None
  end.

(** [int(s)] in base ten; [ValueError] carries the rejected literal.
    The interpreter's limit on the number of digits is not modelled. *)
Definition int (s : string) : result Z :=
  let body := int_rstrip (int_lstrip s) in
  let parsed :=
    match body with
    | String "-"%char digits => option_map Z.opp (int_digits digits 0 false)
    | String "+"%char digits => int_digits digits 0 false
    | _ => int_digits body 0 false
    end in
  match parsed with
  | Some z => Ok z
  | None => Raise (ValueError s)
  end.

(** [xs[i]] for a non-negative literal index. *)
Definition index {A : Type} (xs : list A) (i : nat) : result A :=
  match nth_error xs i with
  | Some x => Ok x
  | None => Raise IndexError
  end.

(** The line boundaries of [str.splitlines] below code point 256. *)
Definition is_linebreak (c : ascii) : bool :=
  let n := code c in
  ((10 <=? n) && (n <=? 13)) || ((28 <=? n) && (n <=? 30)) || (n =? 133).

(** [s.splitlines()]: no line ends are kept, a carriage return followed
    by a line feed is one boundary, and a final boundary opens no
    further line. *)
Fixpoint splitlines (s : string) : list string :=
  match s with
  | EmptyString => []
  | String c rest =>
      if is_linebreak c then
        EmptyString ::
          match rest with
          | String d rest' =>
              if Ascii.eqb c "013"%char && Ascii.eqb d "010"%char
              then splitlines rest' else splitlines rest
          | EmptyString => []
          end
      else match splitlines rest with
           | [] => [String c EmptyString]
           | w :: ws => String c w :: ws
           end
  end.

(** [sorted(xs, key=...)] on string keys: ascending, and stable.  An
    element goes behind every earlier element whose key is not
    greater. *)
Section Sorted.
Context {A : Type} (key : A -> string).

Fixpoint insert (x : A) (xs : list A) : list A :=
  match xs with
  | [] => [x]
  | y :: ys =>
      if String.ltb (key x) (key y) then x :: xs else y :: insert x ys
  end.

Definition sorted (xs : list A) : list A :=
  fold_left (fun acc x => insert x acc) xs [].
End Sorted.

(** Truth value of an optional string: [None] and [''] are false. *)
Definition truthy (s : option string) : bool :=
  match s with
  | None | Some EmptyString => false
  | Some _ => true
  end.

(** [str(n)] of an integer. *)
Definition str (n : Z) : string := NilZero.string_of_int (Z.to_int n).

(** [format(s, '<w')]: pad with blanks on the right up to width [w]. *)
Fixpoint blanks (n : nat) : string :=
  match n with
  | O => EmptyString
  | S k => String " "%char (blanks k)
  end.

Definition ljust (s : string) (w : nat) : string :=
  s ++ blanks (w - String.length s)%nat.

End Py.

(** ** [extract_line_from_diff] *)

(** [c += 1] on a counter that may still be [None]. *)
Definition incr (c : option Z) : result (option Z) :=
  match c with
  | Some z => Ok (Some (z + 1))
  | None => Raise TypeError
  end.

(** [c == line_number]: [None] equals no integer. *)
Definition cursor_is (c : option Z) (line_number : Z) : bool :=
  match c with
  | Some z => z =? line_number
  | None => false
  end.

(** The text between the sign and the first comma of a header field: the
    argument the source passes to [int]. *)
Definition counter_text (line_info : string) : string :=
  Py.tail (hd EmptyString (Py.split ","%char line_info)).

(** The two assignments under [if line.startswith('@@')]. *)
Definition parse_header (line : string) : result (Z * Z) :=
  let parts := Py.split " "%char line in
  old_line_info <- Py.index parts 1 ;;
  new_line_info <- Py.index parts 2 ;;
  o <- Py.int (counter_text old_line_info) ;;
  n <- Py.int (counter_text new_line_info) ;;
  Ok (o, n).

(** What one iteration of the loop does: go on with new counters, or
    return a line. *)
Inductive outcome : Type :=
| Continue (current_line_number_old current_line_number_new : option Z)
| Return (text : string).

Definition step (line_number : Z) (line_type : string)
    (old new : option Z) (line : string) : result outcome :=
  if Py.startswith line "@@" then
    p <- parse_header line ;;
    Ok (Continue (Some (fst p)) (Some (snd p)))
  else if String.eqb line_type "new" then
    c <- (if Py.startswith line "+" then
            n <- incr new ;; Ok (old, n)
          else if negb (Py.startswith line "-") then
            n <- incr new ;; o <- incr old ;; Ok (o, n)
          else Ok (old, new)) ;;
    if cursor_is (snd c) line_number
    then Ok (Return (Py.strip (Py.tail line)))
    else Ok (Continue (fst c) (snd c))
  else if String.eqb line_type "old" then
    c <- (if Py.startswith line "-" then
            o <- incr old ;; Ok (o, new)
          else if negb (Py.startswith line "+") then
            o <- incr old ;; n <- incr new ;; Ok (o, n)
          else Ok (old, new)) ;;
    if cursor_is (fst c) line_number
    then Ok (Return (Py.strip (Py.tail line)))
    else Ok (Continue (fst c) (snd c))
  else Ok (Continue old new).

(** The [for line in lines] loop; falling off its end returns [None]. *)
Fixpoint scan (line_number : Z) (line_type : string)
    (lines : list string) (old new : option Z) : result (option string) :=
  match lines with
  | [] => Ok None
  | line :: rest =>
      match step line_number line_type old new line with
      | Raise e => Raise e
      | Ok (Return text) => Ok (Some text)
      | Ok (Continue old' new') => scan line_number line_type rest old' new'
      end
  end.

Definition extract_line_from_diff (diff_text : string) (line_number : Z)
    (line_type : string) : result (option string) :=
  scan line_number line_type (Py.split "010"%char diff_text) None None.


(** No line of [pre] returns or raises: the counters the loop holds when
    it reaches the line after [pre]. *)
Fixpoint passes (line_number : Z) (line_type : string)
    (pre : list string) (old new : option Z) : option (option Z * option Z) :=
  match pre with
  | [] => Some (old, new)
  | line :: rest =>
      match step line_number line_type old new line with
      | Ok (Continue old' new') => passes line_number line_type rest old' new'
      | _ => None
      end
  end.

Definition is_ok {A : Type} (r : result A) : bool :=
  match r with
  | Ok _ => true
  | Raise _ => false
  end.

(** Every hunk header among [lines] has two counters that [int] accepts. *)
Definition headers_parse (lines : list string) : bool :=
  forallb (fun l => negb (Py.startswith l "@@") || is_ok (parse_header l)) lines.

Definition nl : string := String "010"%char EmptyString.

(** ** The discussion data of the hosting API *)

(** One end of [position['line_range']]; a JSON [null] is [None]. *)
Record Endpoint : Type := {
  ep_type : option string;
  new_line : option Z;
  old_line : option Z
}.

Record LineRange : Type := {
  range_start : Endpoint;
  range_end : Endpoint
}.

Record Position : Type := {
  base_sha : string;
  head_sha : string;
  new_path : string;
  line_range : option LineRange
}.

Record Note : Type := {
  id : Z;
  author_username : string;
  created_at : string;
  body : string;
  system : bool;
  position : option Position
}.

Record MergeRequest : Type := {
  iid : Z;
  user_notes_count : Z;
  discussions : list (list Note)
}.

(** The two keys [get_line_and_type_from_position] is called with. *)
Inductive direction : Type := start | end_.

(** ** The records the program builds *)

Record NoteOut : Type := {
  out_created_at : string;
  reviewer : string;
  out_body : string
}.

Record RangeEnd : Type := {
  line : option Z;
  type : option string
}.

Record DiscussionRange : Type := {
  dr_start : RangeEnd;
  dr_end : RangeEnd
}.

(** The dictionary [data]; the key ['analyze'] is absent until a summary
    is stored, which [analyze = None] stands for. *)
Record ConversationData : Type := {
  conversation_link : string;
  first_note_date : string;
  note_count : Z;
  reviewers : string;
  notes : list NoteOut;
  diff_text : option string;
  discussion_range : DiscussionRange;
  analyze : option string
}.

Definition unset_range : DiscussionRange :=
  {| dr_start := {| line := None; type := None |};
     dr_end := {| line := None; type := None |} |}.

(** ** [filter_and_sort_notes] *)

Definition is_author (username : option string) (note : Note) : bool :=
  match username with
  | Some u => String.eqb (author_username note) u
  | None => false
  end.

(** The notes the loop appends to [conversation]. *)
Definition kept (reviewer_username : option string) (note : Note) : bool :=
  (negb (Py.truthy reviewer_username) || is_author reviewer_username note)
  && negb (system note).

Definition filter_and_sort_notes (reviewer_username reviewed_username : option string)
    (notes : list Note) : list Note :=
  if forallb (is_author reviewed_username) notes then []
  else Py.sorted created_at (filter (kept reviewer_username) notes).

(** ** [get_line_and_type_from_position] *)

Definition get_line_and_type_from_position (first_note_position : Position)
    (d : direction) : result (option Z * option string) :=
  match line_range first_note_position with
  | None => Raise TypeError
  | Some range =>
      let position_side :=
        match d with
        | start => range_start range
        | end_ => range_end range
        end in
      let side_line_type := ep_type position_side in
      let side_line :=
        match side_line_type with
        | Some t => if String.eqb t "new" then new_line position_side
                    else old_line position_side
        | None => old_line position_side
        end in
      Ok (side_line, side_line_type)
  end.

(** ** [get_git_diff] *)

(** What [subprocess.run(..., check=True)] gives for the git command: the
    captured standard output, [CalledProcessError] on a non-zero exit
    status, or another exception of its own ([FileNotFoundError] without
    a git program, [UnicodeDecodeError] on output that is no text,
    [ValueError] on a null byte in an argument). *)
Inductive completed : Type :=
| Completed (stdout : string)
| CalledProcessError
| OtherError (e : exn).

(** The value of [start_line] after the loop over [diff_lines]. *)
Fixpoint first_hunk_index (diff_lines : list string) : nat :=
  match diff_lines with
  | [] => O
  | l :: rest =>
      if Py.startswith l "@@" then O else S (first_hunk_index rest)
  end.

Definition diff_from_first_hunk (stdout : string) : string :=
  let diff_lines := Py.splitlines stdout in
  Py.join nl (skipn (first_hunk_index diff_lines) diff_lines).

Section Pipeline.

(** The collaborators: the git command, the time conversion done by
    [datetime] (it raises on a string of another shape), and the order
    in which a set of names is iterated. *)
Variable git_diff_run : string -> string -> string -> completed.
Variable convert_time_format : string -> result string.
Variable set_order : list string -> list string.
Variable project_web_url : string.

(** Only [CalledProcessError] is caught. *)
Definition get_git_diff (base head path : string) : result (option string) :=
  match git_diff_run base head path with
  | Completed stdout => Ok (Some (diff_from_first_hunk stdout))
  | CalledProcessError => Ok None
  | OtherError e => Raise e
  end.

Fixpoint get_notes (conversation : list Note) : result (list NoteOut) :=
  match conversation with
  | [] => Ok []
  | note :: rest =>
      t <- convert_time_format (created_at note) ;;
      others <- get_notes rest ;;
      Ok ({| out_created_at := t;
             reviewer := author_username note;
             out_body := body note |} :: others)
  end.

(** The dictionary [collect_conversation_data] returns, with the keys
    the caller adds next still at their initial values. *)
Definition collect_conversation_data (conversation : list Note)
    : result ConversationData :=
  first <- Py.index conversation 0 ;;
  date <- convert_time_format (created_at first) ;;
  Ok {| conversation_link := "#note_" ++ Py.str (id first);
        first_note_date := date;
        note_count := Z.of_nat (List.length conversation);
        reviewers := Py.join ", " (set_order (map author_username conversation));
        notes := [];
        diff_text := None;
        discussion_range := unset_range;
        analyze := None |}.

(** The body of [if conversation:] in [extract_gitlab_conversations]. *)
Definition conversation_record (merge_request_iid : Z) (conversation : list Note)
    : result ConversationData :=
  data <- collect_conversation_data conversation ;;
  out_notes <- get_notes conversation ;;
  first <- Py.index conversation 0 ;;
  let link := project_web_url ++ "/-/merge_requests/" ++ Py.str merge_request_iid
              ++ "/" ++ conversation_link data in
  match position first with
  | None =>
      Ok {| conversation_link := link;
            first_note_date := first_note_date data;
            note_count := note_count data;
            reviewers := reviewers data;
            notes := out_notes;
            diff_text := None;
            discussion_range := unset_range;
            analyze := None |}
  | Some first_note_position =>
      git_diff <- get_git_diff (base_sha first_note_position)
                    (head_sha first_note_position)
                    (new_path first_note_position) ;;
      s <- get_line_and_type_from_position first_note_position start ;;
      e <- get_line_and_type_from_position first_note_position end_ ;;
      Ok {| conversation_link := link;
            first_note_date := first_note_date data;
            note_count := note_count data;
            reviewers := reviewers data;
            notes := out_notes;
            diff_text := if Py.truthy git_diff then git_diff else None;
            discussion_range :=
              {| dr_start := {| line := fst s; type := snd s |};
                 dr_end := {| line := fst e; type := snd e |} |};
            analyze := None |}
  end.

Section Run.
Variable reviewer_username reviewed_username : option string.

(** One discussion: nothing is appended when the conversation is
    empty. *)
Definition discussion_record (merge_request_iid : Z) (discussion : list Note)
    : result (option ConversationData) :=
  let conversation :=
    filter_and_sort_notes reviewer_username reviewed_username discussion in
  match conversation with
  | [] => Ok None
  | _ => data <- conversation_record merge_request_iid conversation ;;
         Ok (Some data)
  end.

(** [for discussion in discussions], appending to [conversation_data]. *)
Fixpoint for_discussions (merge_request_iid : Z) (ds : list (list Note))
    (conversation_data : list ConversationData)
    : result (list ConversationData) :=
  match ds with
  | [] => Ok conversation_data
  | discussion :: rest =>
      r <- discussion_record merge_request_iid discussion ;;
      for_discussions merge_request_iid rest
        (match r with
         | Some data => (conversation_data ++ [data])%list
         | None => conversation_data
         end)
  end.

(** [for merge_request in merge_requests]. *)
Fixpoint for_merge_requests (mrs : list MergeRequest)
    (conversation_data : list ConversationData)
    : result (list ConversationData) :=
  match mrs with
  | [] => Ok conversation_data
  | merge_request :: rest =>
      if user_notes_count merge_request =? 0
      then for_merge_requests rest conversation_data
      else
        cd <- for_discussions (iid merge_request)
                (discussions merge_request) conversation_data ;;
        for_merge_requests rest cd
  end.

(** [extract_gitlab_conversations] over the successive pages the
    hosting API answers with; the loop ends at the first empty page.
    The two counters of the source only feed the printed totals. *)
Fixpoint while_pages (pages : list (list MergeRequest))
    (conversation_data : list ConversationData)
    : result (list ConversationData) :=
  match pages with
  | [] => Ok conversation_data
  | [] :: _ => Ok conversation_data
  | merge_requests :: rest =>
      cd <- for_merge_requests merge_requests conversation_data ;;
      while_pages rest cd
  end.

Definition extract_gitlab_conversations (pages : list (list MergeRequest))
    : result (list ConversationData) :=
  while_pages pages [].
End Run.

End Pipeline.

(** ** [print_analyze] and [print_to_csv] *)

Definition quote : string := String "034"%char EmptyString.

Definition with_analyze (data : ConversationData) (answer : string)
    : ConversationData :=
  {| conversation_link := conversation_link data;
     first_note_date := first_note_date data;
     note_count := note_count data;
     reviewers := reviewers data;
     notes := notes data;
     diff_text := diff_text data;
     discussion_range := discussion_range data;
     analyze := Some answer |}.

(** [data['analyze']]. *)
Definition get_analyze (data : ConversationData) : result string :=
  match analyze data with
  | Some a => Ok a
  | None => Raise (KeyError "analyze")
  end.

(** What a run of [print_analyze] leaves behind: the records as mutated,
    the lines it printed itself, the rows of the CSV file if the file was
    written, and the exception that ended the run, if any. *)
Record Run : Type := {
  data_after : list ConversationData;
  printed : list string;
  csv_rows : option (list (list string));
  raised : option exn
}.

Section Analyze.

(** The summarization collaborator ([Raise] for any exception it ends
    with, the retries included) and the text of an exception. *)
Variable analyze_review_discussion :
  string -> option string -> DiscussionRange -> result string.
Variable str_exn : exn -> string.

Definition conversation_text (data : ConversationData) : string :=
  Py.join nl (map (fun n => reviewer n ++ ": " ++ out_body n) (notes data)).

(** The first loop: the [try] stores the summary, the [except] prints
    and leaves the record as it was. *)
Fixpoint analyze_loop (conversation_data : list ConversationData)
    : list ConversationData * list string :=
  match conversation_data with
  | [] => ([], [])
  | data :: rest =>
      let r := analyze_review_discussion (conversation_text data)
                 (diff_text data) (discussion_range data) in
      let rest' := analyze_loop rest in
      match r with
      | Ok answer => (with_analyze data answer :: fst rest', snd rest')
      | Raise e =>
          (data :: fst rest',
           ("print_analyze error: " ++ quote ++ str_exn e ++ quote) :: snd rest')
      end
  end.

Definition table_header : string :=
  nl ++ Py.ljust "MR IID" 75 ++ " " ++ Py.ljust "First Note Date" 28 ++ " "
     ++ Py.ljust "Note Count" 3 ++ " " ++ Py.ljust "Analyze" 40 ++ " "
     ++ "Reviewers".

Definition table_row (data : ConversationData) : result string :=
  a <- get_analyze data ;;
  Ok (Py.ljust (conversation_link data) 75 ++ " "
      ++ Py.ljust (first_note_date data) 25 ++ " "
      ++ Py.ljust (Py.str (note_count data)) 3 ++ " "
      ++ Py.ljust a 40 ++ " " ++ reviewers data).

(** The second loop: the lines printed, and the exception that stopped
    it, if one did. *)
Fixpoint print_rows (conversation_data : list ConversationData)
    : list string * option exn :=
  match conversation_data with
  | [] => ([], None)
  | data :: rest =>
      match table_row data with
      | Raise e => ([], Some e)
      | Ok row => let r := print_rows rest in (row :: fst r, snd r)
      end
  end.

Definition csv_row (data : ConversationData) : result (list string) :=
  a <- get_analyze data ;;
  Ok [conversation_link data; first_note_date data;
      Py.str (note_count data); a; reviewers data].

Fixpoint csv_data_rows (conversation_data : list ConversationData)
    : result (list (list string)) :=
  match conversation_data with
  | [] => Ok []
  | data :: rest =>
      row <- csv_row data ;;
      rows <- csv_data_rows rest ;;
      Ok (row :: rows)
  end.

(** The rows handed to the CSV writer, the header row first. *)
Definition print_to_csv (conversation_data : list ConversationData)
    : result (list (list string)) :=
  rows <- csv_data_rows conversation_data ;;
  Ok (["MR IID"; "First Note Date"; "Note Count"; "Analyze"; "Reviewers"] :: rows).

Definition print_analyze (conversation_data : list ConversationData)
    (result_csv_file : option string) : Run :=
  let analyzed := analyze_loop conversation_data in
  let rows := print_rows (fst analyzed) in
  let out := (snd analyzed ++ [table_header] ++ fst rows)%list in
  match snd rows with
  | Some e =>
      {| data_after := fst analyzed; printed := out;
         csv_rows := None; raised := Some e |}
  | None =>
      if Py.truthy result_csv_file then
        match print_to_csv (fst analyzed) with
        | Ok rows' =>
            {| data_after := fst analyzed; printed := out;
               csv_rows := Some rows'; raised := None |}
        | Raise e =>
            {| data_after := fst analyzed; printed := out;
               csv_rows := None; raised := Some e |}
        end
      else
        {| data_after := fst analyzed; printed := out;
           csv_rows := None; raised := None |}
  end.

End Analyze.

(** The outcome of an iteration that returns its line. *)
Definition returns (line : string) : result outcome :=
  Ok (Return (Py.strip (Py.tail line))).

(** ** The example diff of the specification *)

Definition hunk_10 : string :=
  "@@ -10,3 +10,4 @@" ++ nl ++ " context1" ++ nl ++ "+added1" ++ nl ++ " context2".

(** ** Example discussions *)

(** The order on creation times [sorted] uses: the order of the
    timestamp strings. *)
Definition created_le (a b : Note) : Prop :=
  String.leb (created_at a) (created_at b) = true.

Definition created_is (k : string) (n : Note) : bool :=
  String.eqb (created_at n) k.

(** The notes [filter_and_sort_notes] hands to [sorted]. *)
Definition kept_notes (reviewer_username reviewed_username : option string)
    (notes : list Note) : list Note :=
  if forallb (is_author reviewed_username) notes then []
  else filter (kept reviewer_username) notes.

Definition note_of (author created : string) (anchor : option Position) : Note :=
  {| id := 7; author_username := author; created_at := created;
     body := "please rename"; system := false; position := anchor |}.

Definition note_A : Note := note_of "A" "2024-05-01T10:00:02.000Z" None.
Definition note_B : Note := note_of "B" "2024-05-01T10:00:01.000Z" None.

(** What [get_line_and_type_from_position] reads off one end of a line
    range. *)
Definition anchor_end (position_side : Endpoint) : RangeEnd :=
  {| line := match ep_type position_side with
             | Some t => if String.eqb t "new" then new_line position_side
                         else old_line position_side
             | None => old_line position_side
             end;
     type := ep_type position_side |}.

Definition anchor_range (range : LineRange) : DiscussionRange :=
  {| dr_start := anchor_end (range_start range);
     dr_end := anchor_end (range_end range) |}.

(** An anchor on new lines 50 to 52, which the example diff does not
    reach. *)
Definition range_50 : LineRange :=
  {| range_start := {| ep_type := Some "new"; new_line := Some 50;
                       old_line := None |};
     range_end := {| ep_type := Some "new"; new_line := Some 52;
                     old_line := None |} |}.

Definition anchor_50 : Position :=
  {| base_sha := "1f3a"; head_sha := "9c2e"; new_path := "src/app.py";
     line_range := Some range_50 |}.

Definition anchored_A : Note :=
  note_of "A" "2024-05-01T10:00:01.000Z" (Some anchor_50).
Definition reply_B : Note :=
  note_of "B" "2024-05-01T10:00:02.000Z" None.

(** Stand-ins for the collaborators in the examples. *)
Definition git_gives_hunk_10 (base head path : string) : completed :=
  Completed ("diff --git a/src/app.py b/src/app.py" ++ nl
             ++ "--- a/src/app.py" ++ nl ++ "+++ b/src/app.py" ++ nl ++ hunk_10).
Definition git_fails (base head path : string) : completed :=
  CalledProcessError.
Definition keep_time (at_ : string) : result string := Ok at_.
Definition listed_order (names : list string) : list string := names.
Definition example_url : string := "https://gitlab.example.com/group/project".

(** A summarizer that fails on the records without a diff, and the text
    of an exception. *)
Definition summary_needs_diff (conversation : string) (diff : option string)
    (range : DiscussionRange) : result string :=
  match diff with
  | Some _ => Ok "rename before merging"
  | None => Raise (Exception "rate limit reached")
  end.
Definition exn_text (e : exn) : string :=
  match e with
  | Exception text => text
  | KeyError key => key
  | ValueError literal => literal
  | TypeError => "TypeError"
  | IndexError => "IndexError"
  end.

Definition record_without_diff : ConversationData :=
  {| conversation_link := "https://gitlab.example.com/group/project/-/merge_requests/12/#note_7";
     first_note_date := "01-05-2024 10:00:01.000000";
     note_count := 1;
     reviewers := "B";
     notes := [{| out_created_at := "01-05-2024 10:00:01.000000";
                  reviewer := "B"; out_body := "please rename" |}];
     diff_text := None;
     discussion_range := unset_range;
     analyze := None |}.

Definition record_with_diff : ConversationData :=
  {| conversation_link := "https://gitlab.example.com/group/project/-/merge_requests/12/#note_9";
     first_note_date := "01-05-2024 11:00:00.000000";
     note_count := 1;
     reviewers := "A";
     notes := [{| out_created_at := "01-05-2024 11:00:00.000000";
                  reviewer := "A"; out_body := "why this change" |}];
     diff_text := Some hunk_10;
     discussion_range := anchor_range range_50;
     analyze := None |}.

(** Every creation time of the conversation is one the time conversion
    accepts. *)
Definition times_convert (convert_time_format : string -> result string)
    (conversation : list Note) : Prop :=
  forall note, In note conversation ->
    exists t, convert_time_format (created_at note) = Ok t.

(** The diff text stored in the record: an absent and an empty diff both
    leave the key at [None].  When [get_git_diff] raises no record is
    built and nothing is stored. *)
Definition stored_diff (git_diff_run : string -> string -> string -> completed)
    (p : Position) : option string :=
  match get_git_diff git_diff_run (base_sha p) (head_sha p) (new_path p) with
  | Ok git_diff => if Py.truthy git_diff then git_diff else None
  | Raise _ => None
  end.

(** Every hunk header among [lines] parses, and its counter for the
    requested side is above [t]. *)
Definition hunks_start_above (t : Z) (new_side : bool) (lines : list string)
    : bool :=
  forallb (fun l =>
             negb (Py.startswith l "@@")
             || match parse_header l with
                | Ok (o, n) => t <? (if new_side then n else o)
                | Raise _ => false
                end) lines.

(** [c in s]. *)
Fixpoint contains (c : ascii) (s : string) : bool :=
  match s with
  | EmptyString => false
  | String d rest => Ascii.eqb d c || contains c rest
  end.

(** An anchor without a line range, as on a comment that is not attached
    to lines, and a note that carries it. *)
Definition anchor_no_range : Position :=
  {| base_sha := "1f3a"; head_sha := "9c2e"; new_path := "src/app.py";
     line_range := None |}.

Definition unranged_A : Note :=
  note_of "A" "2024-05-01T10:00:01.000Z" (Some anchor_no_range).

(** A system note. *)
Definition system_note (author created : string) : Note :=
  {| id := 8; author_username := author; created_at := created;
     body := "changed the description"; system := true; position := None |}.

(** Two merge requests: the discussion of the first gives a record, the
    discussion of the second starts with a note whose anchor has no line
    range. *)
Definition mr_12 : MergeRequest :=
  {| iid := 12; user_notes_count := 2;
     discussions := [[anchored_A; reply_B]] |}.

Definition mr_13 : MergeRequest :=
  {| iid := 13; user_notes_count := 2;
     discussions := [[reply_B; unranged_A]] |}.

(** What holds of every record the extraction builds. *)
Definition fresh_record (data : ConversationData) : Prop :=
  note_count data = Z.of_nat (List.length (notes data))
  /\ 1 <= note_count data
  /\ analyze data = None
  /\ match diff_text data with
     | Some d => Py.startswith d "@@" = true
     | None => True
     end.

(** ** [analyze_review_discussion] *)

(** How an f-string renders a value that may be [None]. *)
Definition format_line (l : option Z) : string :=
  match l with
  | Some n => Py.str n
  | None => "None"
  end.

Definition format_text (s : option string) : string :=
  match s with
  | Some t => t
  | None => "None"
  end.

Definition prompt (conversation : string) (diff_text : option string)
    (discussion_range : DiscussionRange) : string :=
  let s_range := dr_start discussion_range in
  let e_range := dr_end discussion_range in
  let s_line := line s_range in
  let s_type := type s_range in
  let e_line := line e_range in
  let e_type := type e_range in
  "Get me the insight from this code review discussion. up to 7 words:"
  ++ nl ++ quote ++ nl ++ conversation ++ nl ++ quote ++ "." ++ nl
  ++ "The discussion refers to the code change introduced by the following diff - "
  ++ "the exact change is ranged between lines "
  ++ format_line s_line ++ " (" ++ format_text s_type ++ ") and "
  ++ format_line e_line ++ " (" ++ format_text e_type ++ "):"
  ++ nl ++ "```" ++ nl ++ format_text diff_text ++ nl ++ "```" ++ nl.

Section Summary.

(** The request to the completion service with its retries: the content
    of the first choice of the response, or the exception the call ends
    with. *)
Variable completion_with_backoff : string -> result string.

Definition analyze_review_discussion (conversation : string)
    (diff_text : option string) (discussion_range : DiscussionRange)
    : result string :=
  completion_with_backoff (prompt conversation diff_text discussion_range).

End Summary.

(** ** [load_json_to_dict] and [main] *)

(** The parsed command line.  [args_analyze = None] stands for the
    default of the option, [True]; a value given on the command line is
    the text as typed. *)
Record Args : Type := {
  args_reviewed_username : option string;
  args_reviewer_username : option string;
  args_gitlab_access_token : option string;
  args_gitlab_previous_output : option string;
  args_analyze : option string;
  args_result_csv_file : option string;
  args_raw_json_file : option string
}.

(** What a run of [main] leaves behind: the line [load_json_to_dict]
    printed, the file [save_dict_to_json] wrote, the run of
    [print_analyze], the table printed without analysis, and the exception
    that ended the run, if any. *)
Record MainRun : Type := {
  load_error : option string;
  raw_json : option (string * list ConversationData);
  analysis : option Run;
  plain_table : list string;
  main_raised : option exn
}.

Definition plain_header : string :=
  nl ++ Py.ljust "MR IID" 75 ++ " " ++ Py.ljust "First Note Date" 28 ++ " "
     ++ Py.ljust "Note Count" 3 ++ " " ++ "Reviewers".

Definition plain_row (data : ConversationData) : string :=
  Py.ljust (conversation_link data) 75 ++ " "
  ++ Py.ljust (first_note_date data) 25 ++ " "
  ++ Py.ljust (Py.str (note_count data)) 3 ++ " " ++ reviewers data.

(** Truth value of [args.analyze]. *)
Definition analyze_wanted (a : option string) : bool :=
  match a with
  | None => true
  | Some text => Py.truthy (Some text)
  end.

Section Main.

Variable git_diff_run : string -> string -> string -> completed.
Variable convert_time_format : string -> result string.
Variable set_order : list string -> list string.
Variable project_web_url : string.
(** [config.REVIEWED_USERNAME]; the pages of merged merge requests the
    hosting API lists for an author filter; [json.load] on a file; the
    completion request; the text of an exception. *)
Variable REVIEWED_USERNAME : string.
Variable mergerequests_list : option string -> list (list MergeRequest).
Variable json_load : string -> result (list ConversationData).
Variable completion_with_backoff : string -> result string.
Variable str_exn : exn -> string.

(** An unreadable file gives the empty dictionary, over which the loops
    of the callers do not iterate. *)
Definition load_json_to_dict (file_path : string)
    : list ConversationData * option string :=
  match json_load file_path with
  | Ok data => (data, None)
  | Raise e => ([], Some ("Error loading JSON file: " ++ str_exn e))
  end.

Definition main (args : Args) : MainRun :=
  let reviewed_username :=
    if negb (Py.truthy (args_reviewed_username args))
       && negb (Py.truthy (args_reviewer_username args))
    then Some REVIEWED_USERNAME
    else args_reviewed_username args in
  let report (conversation_data : list ConversationData)
      (error : option string)
      (written : option (string * list ConversationData)) : MainRun :=
    if analyze_wanted (args_analyze args) then
      let run := print_analyze (analyze_review_discussion completion_with_backoff)
                   str_exn conversation_data (args_result_csv_file args) in
      {| load_error := error; raw_json := written; analysis := Some run;
         plain_table := []; main_raised := raised run |}
    else
      {| load_error := error; raw_json := written; analysis := None;
         plain_table := plain_header :: map plain_row conversation_data;
         main_raised := None |} in
  match args_gitlab_previous_output args with
  | Some (String c rest as file_path) =>
      let loaded := load_json_to_dict file_path in
      report (fst loaded) (snd loaded) None
  | _ =>
      match extract_gitlab_conversations git_diff_run convert_time_format
              set_order project_web_url (args_reviewer_username args)
              reviewed_username
              (mergerequests_list
                 (if Py.truthy reviewed_username then reviewed_username
                  else None)) with
      | Raise e =>
          {| load_error := None; raw_json := None; analysis := None;
             plain_table := []; main_raised := Some e |}
      | Ok conversation_data =>
          report conversation_data None
            (match args_raw_json_file args with
             | Some (String c rest as raw_json_file) =>
                 Some (raw_json_file, conversation_data)
             | _ => None
             end)
      end
  end.

End Main.

Definition set_analyze (a : option string) (args : Args) : Args :=
  {| args_reviewed_username := args_reviewed_username args;
     args_reviewer_username := args_reviewer_username args;
     args_gitlab_access_token := args_gitlab_access_token args;
     args_gitlab_previous_output := args_gitlab_previous_output args;
     args_analyze := a;
     args_result_csv_file := args_result_csv_file args;
     args_raw_json_file := args_raw_json_file args |}.

(** Example command lines and collaborators. *)
Definition online_args : Args :=
  {| args_reviewed_username := Some "C";
     args_reviewer_username := None;
     args_gitlab_access_token := Some "token";
     args_gitlab_previous_output := None;
     args_analyze := None;
     args_result_csv_file := Some "result.csv";
     args_raw_json_file := Some "raw.json" |}.

Definition offline_args : Args :=
  {| args_reviewed_username := Some "C";
     args_reviewer_username := None;
     args_gitlab_access_token := None;
     args_gitlab_previous_output := Some "previous.json";
     args_analyze := None;
     args_result_csv_file := Some "result.csv";
     args_raw_json_file := Some "raw.json" |}.

Definition one_page (author : option string) : list (list MergeRequest) :=
  [[mr_12]].

Definition no_file (file_path : string) : result (list ConversationData) :=
  Raise (Exception "No such file or directory").

Definition completion_fails (text : string) : result string :=
  Raise (Exception "rate limit reached").

(** A path with a null byte, which [subprocess.run] refuses before it
    starts git. *)
Definition path_with_null_byte : string :=
  "src/" ++ String "000"%char "app.py".

Definition git_rejects_null_byte (base head path : string) : completed :=
  if contains "000"%char path
  then OtherError (ValueError "embedded null byte")
  else Completed hunk_10.

(** A record with its diff text taken away, and a function applied to
    what a computation returns. *)
Definition without_diff (data : ConversationData) : ConversationData :=
  {| conversation_link := conversation_link data;
     first_note_date := first_note_date data;
     note_count := note_count data;
     reviewers := reviewers data;
     notes := notes data;
     diff_text := None;
     discussion_range := discussion_range data;
     analyze := analyze data |}.

Definition result_map {A B : Type} (f : A -> B) (r : result A) : result B :=
  match r with
  | Ok a => Ok (f a)
  | Raise e => Raise e
  end.

(** A git output whose hunk header has counters that are no numbers. *)
Definition broken_header_diff : string :=
  "@@ -a,1 +b,1 @@" ++ nl ++ " x".

Definition git_gives_broken_header (base head path : string) : completed :=
  Completed ("--- a/src/app.py" ++ nl ++ broken_header_diff).

(** ** The instant a creation time denotes *)

(** The decimal digits at the front of [s], and what follows them. *)
Fixpoint span_digits (s : string) : string * string :=
  match s with
  | String c rest =>
      if Py.isdigit c
      then (String c (fst (span_digits rest)), snd (span_digits rest))
      else (EmptyString, s)
  | EmptyString => (EmptyString, EmptyString)
  end.

(** A field of digits, not empty, closed by [sep]. *)
Definition field (sep : ascii) (s : string) : option (string * string) :=
  match span_digits s with
  | (String c digits, String c' rest) =>
      if Ascii.eqb c' sep then Some (String c digits, rest) else None
  | _ => None
  end.

(** The seven fields of a text of the form
    year-month-dayThour:minute:second.fractionZ. *)
Definition fields (at_ : string) : option (list string) :=
  match field "-" at_ with
  | Some (Y, r1) =>
  match field "-" r1 with
  | Some (M, r2) =>
  match field "T" r2 with
  | Some (D, r3) =>
  match field ":" r3 with
  | Some (h, r4) =>
  match field ":" r4 with
  | Some (m, r5) =>
  match field "." r5 with
  | Some (s, r6) =>
  match field "Z" r6 with
  | Some (f, EmptyString) => Some [Y; M; D; h; m; s; f]
  | _ => None
  end
  | None => None
  end
  | None => None
  end
  | None => None
  end
  | None => None
  end
  | None => None
  end
  | None => None
  end.

Fixpoint number (digits : string) : Z :=
  match digits with
  | EmptyString => 0
  | String c rest =>
      (Py.code c - 48) * 10 ^ Z.of_nat (String.length rest) + number rest
  end.

(** The instant a creation time denotes: year, month, day, hour, minute,
    second and microsecond, the fraction of the second having one to six
    digits.  Instants are ordered as these lists are, the first field
    that differs deciding. *)
Definition instant (at_ : string) : option (list Z) :=
  match fields at_ with
  | Some [Y; M; D; h; m; s; f] =>
      if (String.length f <=? 6)%nat
      then Some [number Y; number M; number D; number h; number m; number s;
                 number f * 10 ^ Z.of_nat (6 - String.length f)]
      else None
  | _ => None
  end.

Fixpoint lex_compare (x y : list Z) : comparison :=
  match x, y with
  | [], [] => Eq
  | [], _ :: _ => Lt
  | _ :: _, [] => Gt
  | a :: x', b :: y' =>
      match a ?= b with
      | Eq => lex_compare x' y'
      | c => c
      end
  end.

Fixpoint same_widths (fs : list string) (widths : list nat) : bool :=
  match fs, widths with
  | [], [] => true
  | f :: fs', w :: widths' =>
      Nat.eqb (String.length f) w && same_widths fs' widths'
  | _, _ => false
  end.

(** The layout of the creation times the hosting API writes:
    2024-05-01T10:00:01.000Z, every field of a fixed width. *)
Definition fixed_width (at_ : string) : bool :=
  match fields at_ with
  | Some fs => same_widths fs [4; 2; 2; 2; 2; 2; 3]%nat
  | None => false
  end.

Fixpoint all_digits (s : string) : bool :=
  match s with
  | EmptyString => true
  | String c r => Py.isdigit c && all_digits r
  end.

(** [a] was created no later than [b]. *)
Definition no_later (a b : Note) : Prop :=
  match instant (created_at a), instant (created_at b) with
  | Some x, Some y => lex_compare x y <> Gt
  | _, _ => False
  end.

(** [n] was created at the instant [i]. *)
Definition created_when (i : list Z) (n : Note) : bool :=
  match instant (created_at n) with
  | Some x => match lex_compare x i with
              | Eq => true
              | _ => false
              end
  | None => false
  end.

(** Two notes a microsecond apart, the fraction of the second written
    with one digit and with six. *)
Definition note_tenth : Note := note_of "A" "2024-05-01T10:00:01.1Z" None.
Definition note_tenth_later : Note :=
  note_of "B" "2024-05-01T10:00:01.100001Z" None.

(** * Properties of the line resolver *)

Lemma hunk_10_lines :
  Py.split "010"%char hunk_10
  = ["@@ -10,3 +10,4 @@"; " context1"; "+added1"; " context2"].
Proof. reflexivity. Qed.

Lemma hunk_10_header : parse_header "@@ -10,3 +10,4 @@" = Ok (10, 10).
Proof. reflexivity. Qed.

(** What one iteration does, by the class of the line. *)

Section StepEquations.
Variables (t : Z) (l : string).

Let found : result outcome := returns l.

Lemma step_header (ty : string) (o n : option Z) :
  Py.startswith l "@@" = true ->
  step t ty o n l
  = (p <- parse_header l ;; Ok (Continue (Some (fst p)) (Some (snd p)))).
Proof. intros H. unfold step. rewrite H. reflexivity. Qed.

Hypothesis content : Py.startswith l "@@" = false.

Lemma step_new_added (o : option Z) (n : Z) :
  Py.startswith l "+" = true ->
  step t "new" o (Some n) l
  = if n + 1 =? t then found else Ok (Continue o (Some (n + 1))).
Proof.
  intros H. unfold step. rewrite content, H. cbn [String.eqb Ascii.eqb Bool.eqb incr bind snd fst cursor_is].
  reflexivity.
Qed.

Lemma step_new_removed (o n : option Z) :
  Py.startswith l "+" = false -> Py.startswith l "-" = true ->
  step t "new" o n l
  = if cursor_is n t then found else Ok (Continue o n).
Proof.
  intros H1 H2. unfold step. rewrite content, H1, H2. reflexivity.
Qed.

Lemma step_new_context (o n : Z) :
  Py.startswith l "+" = false -> Py.startswith l "-" = false ->
  step t "new" (Some o) (Some n) l
  = if n + 1 =? t then found else Ok (Continue (Some (o + 1)) (Some (n + 1))).
Proof.
  intros H1 H2. unfold step. rewrite content, H1, H2. reflexivity.
Qed.

Lemma step_old_removed (o : Z) (n : option Z) :
  Py.startswith l "-" = true ->
  step t "old" (Some o) n l
  = if o + 1 =? t then found else Ok (Continue (Some (o + 1)) n).
Proof.
  intros H. unfold step. rewrite content, H. reflexivity.
Qed.

Lemma step_old_added (o n : option Z) :
  Py.startswith l "-" = false -> Py.startswith l "+" = true ->
  step t "old" o n l
  = if cursor_is o t then found else Ok (Continue o n).
Proof.
  intros H1 H2. unfold step. rewrite content, H1, H2. reflexivity.
Qed.

Lemma step_old_context (o n : Z) :
  Py.startswith l "-" = false -> Py.startswith l "+" = false ->
  step t "old" (Some o) (Some n) l
  = if o + 1 =? t then found else Ok (Continue (Some (o + 1)) (Some (n + 1))).
Proof.
  intros H1 H2. unfold step. rewrite content, H1, H2. reflexivity.
Qed.

End StepEquations.

Lemma hunk_10_new (n : Z) :
  extract_line_from_diff hunk_10 n "new"
  = if 11 =? n then Ok (Some "context1")
    else if 12 =? n then Ok (Some "added1")
    else if 13 =? n then Ok (Some "context2")
    else Ok None.
Proof.
  unfold extract_line_from_diff. rewrite hunk_10_lines.
  cbn [scan]. rewrite step_header, hunk_10_header by reflexivity.
  cbn [bind fst snd].
  rewrite step_new_context by reflexivity. change (10 + 1) with 11.
  destruct (11 =? n); [reflexivity|].
  rewrite step_new_added by reflexivity. change (11 + 1) with 12.
  destruct (12 =? n); [reflexivity|].
  rewrite step_new_context by reflexivity. change (12 + 1) with 13.
  destruct (13 =? n); reflexivity.
Qed.

Lemma hunk_10_old (n : Z) :
  extract_line_from_diff hunk_10 n "old"
  = if 11 =? n then Ok (Some "context1")
    else if 12 =? n then Ok (Some "context2")
    else Ok None.
Proof.
  unfold extract_line_from_diff. rewrite hunk_10_lines.
  cbn [scan]. rewrite step_header, hunk_10_header by reflexivity.
  cbn [bind fst snd].
  rewrite step_old_context by reflexivity. change (10 + 1) with 11.
  destruct (11 =? n) eqn:E; [reflexivity|].
  rewrite step_old_added by reflexivity. cbn [cursor_is]. rewrite E.
  rewrite step_old_context by reflexivity. change (11 + 1) with 12.
  destruct (12 =? n); reflexivity.
Qed.

(** C1, as the specification states it, fails on the code: at target line
    11 the New side returns the context line, not the added one, and the
    Old side returns the same context line, not [None]. *)
Lemma hunk_10_line_11_claim_fails :
  ~ (extract_line_from_diff hunk_10 11 "new" = Ok (Some "added1")
     /\ extract_line_from_diff hunk_10 11 "old" = Ok None).
Proof.
  rewrite hunk_10_new, hunk_10_old. cbn. intros [H _]. discriminate H.
Qed.

(** C1, amended: in the example diff no Old-side target line returns the
    added line (it leaves the old counter alone, and the line before it
    has already been compared with that counter's value), while on the New
    side the added line is returned at exactly one target line. *)
Theorem hunk_10_added_line_only_on_new_side :
  (forall n, extract_line_from_diff hunk_10 n "old" <> Ok (Some "added1"))
  /\ (exists m, forall n,
        extract_line_from_diff hunk_10 n "new" = Ok (Some "added1") <-> n = m).
Proof.
  split.
  - intros n. rewrite hunk_10_old.
    destruct (11 =? n); [discriminate|]. destruct (12 =? n); discriminate.
  - exists 12. intros n. rewrite hunk_10_new. split.
    + destruct (11 =? n) eqn:E1; [discriminate|].
      destruct (12 =? n) eqn:E2; [intros _; lia|].
      destruct (13 =? n); discriminate.
    + intros ->. reflexivity.
Qed.

(** C2, on the code: the first content line of the example hunk is not
    matched at the header's counters.  Target line 10 finds nothing on
    either side; the line is matched at 11, one past the header. *)
Theorem hunk_10_first_line_matched_one_past_header :
  extract_line_from_diff hunk_10 10 "old" = Ok None
  /\ extract_line_from_diff hunk_10 10 "new" = Ok None
  /\ extract_line_from_diff hunk_10 11 "old" = Ok (Some "context1")
  /\ extract_line_from_diff hunk_10 11 "new" = Ok (Some "context1").
Proof.
  rewrite !hunk_10_new, !hunk_10_old. repeat split.
Qed.

(** The same for every hunk: right after a header with counters [o] and
    [n], a context line is compared with [o + 1] and [n + 1]. *)
Lemma first_context_line_compared_after_advance
    (t : Z) (h l : string) (rest : list string) (o n : Z) (c1 c2 : option Z) :
  Py.startswith h "@@" = true -> parse_header h = Ok (o, n) ->
  Py.startswith l "@@" = false ->
  Py.startswith l "+" = false -> Py.startswith l "-" = false ->
  scan t "new" (h :: l :: rest) c1 c2
  = (if n + 1 =? t then Ok (Some (Py.strip (Py.tail l)))
     else scan t "new" rest (Some (o + 1)) (Some (n + 1)))
  /\ scan t "old" (h :: l :: rest) c1 c2
    = (if o + 1 =? t then Ok (Some (Py.strip (Py.tail l)))
       else scan t "old" rest (Some (o + 1)) (Some (n + 1))).
Proof.
  intros Hh Hp Hl Hplus Hminus. cbn [scan].
  rewrite !step_header, Hp by assumption. cbn [bind fst snd].
  rewrite step_new_context, step_old_context by assumption.
  unfold returns.
  split; [destruct (n + 1 =? t) | destruct (o + 1 =? t)]; reflexivity.
Qed.

(** ** Totality on diffs that begin with a header *)

Lemma step_content_some (t : Z) (ty l : string) (o n : Z) :
  Py.startswith l "@@" = false ->
  step t ty (Some o) (Some n) l = returns l
  \/ exists o' n', step t ty (Some o) (Some n) l = Ok (Continue (Some o') (Some n')).
Proof.
  intros Hc. unfold step, returns. rewrite Hc.
  destruct (String.eqb ty "new").
  - destruct (Py.startswith l "+"); [|destruct (Py.startswith l "-")];
      cbn [negb incr bind fst snd cursor_is];
      match goal with |- context [if ?b then _ else _] => destruct b end;
      eauto.
  - destruct (String.eqb ty "old"); [|eauto].
    destruct (Py.startswith l "-"); [|destruct (Py.startswith l "+")];
      cbn [negb incr bind fst snd cursor_is];
      match goal with |- context [if ?b then _ else _] => destruct b end;
      eauto.
Qed.

Lemma step_header_some (t : Z) (ty l : string) (c1 c2 : option Z) :
  Py.startswith l "@@" = true -> is_ok (parse_header l) = true ->
  exists o n, step t ty c1 c2 l = Ok (Continue (Some o) (Some n)).
Proof.
  intros Hh Hp. rewrite step_header by assumption.
  destruct (parse_header l) as [[o n]|e]; [|discriminate Hp].
  exists o, n. reflexivity.
Qed.

(** With both counters set, the loop neither raises nor returns anything
    but the text of one of its content lines. *)
Lemma scan_total_from_counters (t : Z) (ty : string) (lines : list string) :
  headers_parse lines = true ->
  forall o n, exists r,
    scan t ty lines (Some o) (Some n) = Ok r
    /\ match r with
       | None => True
       | Some text =>
           exists l, In l lines /\ Py.startswith l "@@" = false
                     /\ text = Py.strip (Py.tail l)
       end.
Proof.
  induction lines as [|l lines IH]; intros Hp o n.
  - exists None. split; [reflexivity | exact I].
  - cbn [headers_parse forallb] in Hp. apply andb_true_iff in Hp.
    destruct Hp as [Hl Hrest]. specialize (IH Hrest). cbn [scan].
    destruct (Py.startswith l "@@") eqn:Hh.
    + cbn [negb orb] in Hl.
      destruct (step_header_some t ty l (Some o) (Some n) Hh Hl) as (o' & n' & E).
      rewrite E. destruct (IH o' n') as (r & Hr & Hin).
      exists r. split; [exact Hr|].
      destruct r as [text|]; [|exact I].
      destruct Hin as (l' & Hin & Hl' & Ht). exists l'.
      split; [right; exact Hin | split; assumption].
    + destruct (step_content_some t ty l o n Hh) as [E | (o' & n' & E)];
        rewrite E.
      * unfold returns. exists (Some (Py.strip (Py.tail l))).
        split; [reflexivity|]. exists l.
        split; [left; reflexivity | split; [exact Hh | reflexivity]].
      * destruct (IH o' n') as (r & Hr & Hin).
        exists r. split; [exact Hr|].
        destruct r as [text|]; [|exact I].
        destruct Hin as (l' & Hin & Hl' & Ht). exists l'.
        split; [right; exact Hin | split; assumption].
Qed.

(** The loop returns [None] exactly when every line is passed without a
    match and without an exception. *)
Lemma scan_none_iff_passes (t : Z) (ty : string) (lines : list string) :
  forall c1 c2,
    scan t ty lines c1 c2 = Ok None
    <-> exists c, passes t ty lines c1 c2 = Some c.
Proof.
  induction lines as [|l lines IH]; intros c1 c2; cbn [scan passes].
  - split; [intros _; eexists; reflexivity | reflexivity].
  - destruct (step t ty c1 c2 l) as [[o n|text]|e].
    + apply IH.
    + split; [discriminate | intros [c H]; discriminate H].
    + split; [discriminate | intros [c H]; discriminate H].
Qed.

(** Where the text begins with a hunk header and every hunk header
    parses, the resolver does return: [None], or the text of one content
    line with its first character dropped and white space trimmed. *)
Lemma scan_total_after_header
    (diff_text : string) (t : Z) (ty h : string) (rest : list string) :
  Py.split "010"%char diff_text = h :: rest ->
  Py.startswith h "@@" = true ->
  headers_parse (h :: rest) = true ->
  exists r,
    extract_line_from_diff diff_text t ty = Ok r
    /\ match r with
       | None => True
       | Some text =>
           exists l, In l rest /\ Py.startswith l "@@" = false
                     /\ text = Py.strip (Py.tail l)
       end.
Proof.
  intros Hsplit Hh Hp. unfold extract_line_from_diff. rewrite Hsplit.
  cbn [headers_parse forallb] in Hp. apply andb_true_iff in Hp.
  destruct Hp as [Hl Hrest]. rewrite Hh in Hl. cbn [negb orb] in Hl.
  destruct (step_header_some t ty h None None Hh Hl) as (o & n & E).
  destruct (scan_total_from_counters t ty rest Hrest o n) as (r & Hr & Hin).
  exists r. split; [|exact Hin]. cbn [scan]. rewrite E. exact Hr.
Qed.

(** C7, on the code: the empty text is among the inputs the claim names,
    and on it the resolver raises [TypeError] for every target line on
    either side, where its docstring promises [None] for a line that is
    not found.  The text has one line, the empty one; it is no header, so
    the loop advances a counter that is still [None].  A text that holds
    the hunk of the specification and does not contain the target is
    answered with [None], as the claim says. *)
Theorem empty_text_raises_type_error :
  (forall line_number,
      extract_line_from_diff EmptyString line_number "new" = Raise TypeError
      /\ extract_line_from_diff EmptyString line_number "old" = Raise TypeError)
  /\ Py.split "010"%char EmptyString = [EmptyString]
  /\ extract_line_from_diff hunk_10 50 "new" = Ok None
  /\ extract_line_from_diff hunk_10 50 "old" = Ok None.
Proof.
  split; [intros line_number; split; reflexivity|].
  repeat split.
Qed.

(** ** A header with a counter that is no number *)

Lemma scan_after_passes (t : Z) (ty : string) (pre rest : list string) :
  forall c1 c2 o n,
    passes t ty pre c1 c2 = Some (o, n) ->
    scan t ty (pre ++ rest) c1 c2 = scan t ty rest o n.
Proof.
  induction pre as [|l pre IH]; intros c1 c2 o n H; cbn [passes] in H.
  - injection H as -> ->. reflexivity.
  - cbn [app scan].
    destruct (step t ty c1 c2 l) as [[o' n'|text]|e]; try discriminate H.
    apply IH. exact H.
Qed.

Lemma int_raises_value_error (s : string) :
  is_ok (Py.int s) = false -> Py.int s = Raise (ValueError s).
Proof.
  unfold Py.int.
  destruct (match Py.int_rstrip (Py.int_lstrip s) with
            | EmptyString => _ | String _ _ => _ end);
    [discriminate | reflexivity].
Qed.

Lemma split_field_length (sep : ascii) (s f : string) :
  In f (Py.split sep s) ->
  (String.length f <= String.length s)%nat
  /\ ((2 <= List.length (Py.split sep s))%nat ->
      (String.length f < String.length s)%nat).
Proof.
  revert f. induction s as [|c s IH]; intros f Hin; cbn [Py.split] in *.
  - destruct Hin as [<-|[]]. cbn. split; lia.
  - destruct (Ascii.eqb c sep).
    + destruct Hin as [<-|Hin]; cbn [String.length]; [split; lia|].
      destruct (IH f Hin) as [Hle _]. split; lia.
    + destruct (Py.split sep s) as [|w ws] eqn:E.
      * destruct Hin as [<-|[]]. cbn in *. split; lia.
      * destruct Hin as [<-|Hin]; cbn [String.length List.length] in *.
        -- destruct (IH w (or_introl eq_refl)) as [Hle Hlt].
           split; [lia|]. intros H2.
           assert (String.length w < String.length s)%nat by (apply Hlt; lia).
           lia.
        -- destruct (IH f (or_intror Hin)) as [Hle _]. split; lia.
Qed.

Lemma split_nonempty (sep : ascii) (s : string) : Py.split sep s <> [].
Proof.
  destruct s as [|c s]; cbn [Py.split]; [discriminate|].
  destruct (Ascii.eqb c sep); [discriminate|].
  destruct (Py.split sep s); discriminate.
Qed.

Lemma counter_text_length (line_info : string) :
  (String.length (counter_text line_info) <= String.length line_info)%nat.
Proof.
  unfold counter_text.
  destruct (Py.split ","%char line_info) as [|w ws] eqn:E.
  - exfalso. exact (split_nonempty _ _ E).
  - cbn [hd].
    assert (Hin : In w (Py.split ","%char line_info)) by (rewrite E; left; reflexivity).
    apply split_field_length in Hin. destruct Hin as [Hle _].
    destruct w; cbn [Py.tail String.length] in *; lia.
Qed.

(** A counter text is strictly shorter than the header it was cut from. *)
Lemma counter_text_shorter (h line_info : string) (i : nat) :
  nth_error (Py.split " "%char h) (S i) = Some line_info ->
  (String.length (counter_text line_info) < String.length h)%nat.
Proof.
  intros Hn.
  assert (H2 : (2 <= List.length (Py.split " "%char h))%nat).
  { assert (S i < List.length (Py.split " "%char h))%nat
      by (apply nth_error_Some; rewrite Hn; discriminate).
    lia. }
  apply nth_error_In in Hn. apply split_field_length in Hn.
  destruct Hn as [_ Hlt]. specialize (Hlt H2).
  pose proof (counter_text_length line_info). lia.
Qed.

(** C8, as stated, fails on the code: a header whose counters are no
    numbers is present in this diff, yet target line 2 on the New side is
    resolved before the scan reaches it; and when the scan does reach it
    the exception is a [ValueError] that carries the counter text, not the
    header line. *)
Lemma unparsable_header_unreported :
  let header := "@@ -a,1 +b,1 @@" in
  let diff_text := "@@ -1,1 +1,1 @@" ++ nl ++ " x" ++ nl ++ header in
  In header (Py.split "010"%char diff_text)
  /\ Py.startswith header "@@" = true
  /\ parse_header header = Raise (ValueError "a")
  /\ extract_line_from_diff diff_text 2 "new" = Ok (Some "x")
  /\ extract_line_from_diff diff_text 3 "new" = Raise (ValueError "a").
Proof.
  cbn zeta. repeat split. right; right; left; reflexivity.
Qed.

(** The extraction does not look into the diff text: with two git commands
    that both return, it gives the same records up to the stored diff
    text, or raises the same exception. *)
Section DiffIsOnlyStored.
Variables git1 git2 : string -> string -> string -> completed.
Variable convert_time_format : string -> result string.
Variable set_order : list string -> list string.
Variable project_web_url : string.
Variables reviewer_username reviewed_username : option string.
Hypothesis returns1 :
  forall base head path, is_ok (get_git_diff git1 base head path) = true.
Hypothesis returns2 :
  forall base head path, is_ok (get_git_diff git2 base head path) = true.

Lemma conversation_record_up_to_diff (merge_request_iid : Z)
    (conversation : list Note) :
  result_map without_diff
    (conversation_record git1 convert_time_format set_order project_web_url
       merge_request_iid conversation)
  = result_map without_diff
      (conversation_record git2 convert_time_format set_order project_web_url
         merge_request_iid conversation).
Proof.
  unfold conversation_record.
  destruct (collect_conversation_data convert_time_format set_order
              conversation) as [data|e]; cbn [bind]; [|reflexivity].
  destruct (get_notes convert_time_format conversation) as [out|e];
    cbn [bind]; [|reflexivity].
  destruct (Py.index conversation 0) as [first|e]; cbn [bind]; [|reflexivity].
  destruct (position first) as [p|]; [|reflexivity].
  pose proof (returns1 (base_sha p) (head_sha p) (new_path p)) as H1.
  pose proof (returns2 (base_sha p) (head_sha p) (new_path p)) as H2.
  destruct (get_git_diff git1 (base_sha p) (head_sha p) (new_path p));
    [|discriminate H1].
  destruct (get_git_diff git2 (base_sha p) (head_sha p) (new_path p));
    [|discriminate H2].
  cbn [bind].
  destruct (get_line_and_type_from_position p start); cbn [bind];
    [|reflexivity].
  destruct (get_line_and_type_from_position p end_); cbn [bind]; reflexivity.
Qed.

Lemma discussion_record_up_to_diff (merge_request_iid : Z)
    (discussion : list Note) :
  result_map (option_map without_diff)
    (discussion_record git1 convert_time_format set_order project_web_url
       reviewer_username reviewed_username merge_request_iid discussion)
  = result_map (option_map without_diff)
      (discussion_record git2 convert_time_format set_order project_web_url
         reviewer_username reviewed_username merge_request_iid discussion).
Proof.
  unfold discussion_record. cbn zeta.
  destruct (filter_and_sort_notes reviewer_username reviewed_username
              discussion) as [|first rest]; [reflexivity|].
  pose proof (conversation_record_up_to_diff merge_request_iid (first :: rest))
    as H.
  destruct (conversation_record git1 convert_time_format set_order
              project_web_url merge_request_iid (first :: rest));
    destruct (conversation_record git2 convert_time_format set_order
                project_web_url merge_request_iid (first :: rest));
    cbn [bind result_map option_map] in *; congruence.
Qed.

Lemma for_discussions_up_to_diff (merge_request_iid : Z)
    (ds : list (list Note)) :
  forall acc1 acc2,
    map without_diff acc1 = map without_diff acc2 ->
    result_map (map without_diff)
      (for_discussions git1 convert_time_format set_order project_web_url
         reviewer_username reviewed_username merge_request_iid ds acc1)
    = result_map (map without_diff)
        (for_discussions git2 convert_time_format set_order project_web_url
           reviewer_username reviewed_username merge_request_iid ds acc2).
Proof.
  induction ds as [|d rest IH]; intros acc1 acc2 Hacc; cbn [for_discussions].
  - cbn [result_map]. now rewrite Hacc.
  - pose proof (discussion_record_up_to_diff merge_request_iid d) as H.
    destruct (discussion_record git1 convert_time_format set_order
                project_web_url reviewer_username reviewed_username
                merge_request_iid d) as [r1|e1];
      destruct (discussion_record git2 convert_time_format set_order
                  project_web_url reviewer_username reviewed_username
                  merge_request_iid d) as [r2|e2];
      cbn [bind result_map] in *; try discriminate H; [|congruence].
    apply IH. injection H as H.
    destruct r1 as [d1|]; destruct r2 as [d2|]; cbn [option_map] in H;
      try discriminate H; [|exact Hacc].
    pose proof (f_equal (fun o => match o with
                                  | Some x => x
                                  | None => without_diff d1
                                  end) H) as Hd.
    cbn beta iota in Hd. rewrite !map_app. cbn [map]. now rewrite Hacc, Hd.
Qed.

Lemma for_merge_requests_up_to_diff (mrs : list MergeRequest) :
  forall acc1 acc2,
    map without_diff acc1 = map without_diff acc2 ->
    result_map (map without_diff)
      (for_merge_requests git1 convert_time_format set_order project_web_url
         reviewer_username reviewed_username mrs acc1)
    = result_map (map without_diff)
        (for_merge_requests git2 convert_time_format set_order project_web_url
           reviewer_username reviewed_username mrs acc2).
Proof.
  induction mrs as [|mr rest IH]; intros acc1 acc2 Hacc;
    cbn [for_merge_requests].
  - cbn [result_map]. now rewrite Hacc.
  - destruct (user_notes_count mr =? 0); [apply IH; exact Hacc|].
    pose proof (for_discussions_up_to_diff (iid mr) (discussions mr)
                  acc1 acc2 Hacc) as H.
    destruct (for_discussions git1 convert_time_format set_order
                project_web_url reviewer_username reviewed_username
                (iid mr) (discussions mr) acc1) as [c1|e1];
      destruct (for_discussions git2 convert_time_format set_order
                  project_web_url reviewer_username reviewed_username
                  (iid mr) (discussions mr) acc2) as [c2|e2];
      cbn [bind result_map] in *; try discriminate H; [|congruence].
    apply IH. injection H as H. exact H.
Qed.

Lemma while_pages_up_to_diff (pages : list (list MergeRequest)) :
  forall acc1 acc2,
    map without_diff acc1 = map without_diff acc2 ->
    result_map (map without_diff)
      (while_pages git1 convert_time_format set_order project_web_url
         reviewer_username reviewed_username pages acc1)
    = result_map (map without_diff)
        (while_pages git2 convert_time_format set_order project_web_url
           reviewer_username reviewed_username pages acc2).
Proof.
  induction pages as [|page rest IH]; intros acc1 acc2 Hacc.
  - cbn [while_pages result_map]. now rewrite Hacc.
  - destruct page as [|mr mrs].
    + cbn [while_pages result_map]. now rewrite Hacc.
    + cbn [while_pages].
      pose proof (for_merge_requests_up_to_diff (mr :: mrs) acc1 acc2 Hacc)
        as H.
      destruct (for_merge_requests git1 convert_time_format set_order
                  project_web_url reviewer_username reviewed_username
                  (mr :: mrs) acc1) as [c1|e1];
        destruct (for_merge_requests git2 convert_time_format set_order
                    project_web_url reviewer_username reviewed_username
                    (mr :: mrs) acc2) as [c2|e2];
        cbn [bind result_map] in *; try discriminate H; [|congruence].
      apply IH. injection H as H. exact H.
Qed.

End DiffIsOnlyStored.

(** C8, amended: when the scan reaches a hunk header line (no earlier line
    matched or raised) that has its two counter fields and one of them is
    not accepted by [int], the resolver does not skip the header: it ends
    with a [ValueError] carrying the text of the first counter that is
    rejected, the old one before the new one, which is never the header
    line itself.  The resolver catches nothing.  No record and no batch
    depends on the failure: the extraction does not run the resolver, and
    for any two git commands that return, whatever the text, it gives the
    same records up to the stored diff text, or the same exception. *)
Theorem unparsable_header_raises_value_error :
  (forall (diff_text : string) (t : Z) (ty : string)
          (pre : list string) (h : string) (rest : list string)
          (c : option Z * option Z) (old_line_info new_line_info : string),
      Py.split "010"%char diff_text = (pre ++ h :: rest)%list ->
      passes t ty pre None None = Some c ->
      Py.startswith h "@@" = true ->
      nth_error (Py.split " "%char h) 1 = Some old_line_info ->
      nth_error (Py.split " "%char h) 2 = Some new_line_info ->
      is_ok (Py.int (counter_text old_line_info))
        && is_ok (Py.int (counter_text new_line_info)) = false ->
      let rejected :=
        if is_ok (Py.int (counter_text old_line_info))
        then counter_text new_line_info
        else counter_text old_line_info in
      extract_line_from_diff diff_text t ty = Raise (ValueError rejected)
      /\ rejected <> h)
  /\ (forall (git1 git2 : string -> string -> string -> completed)
             (convert_time_format : string -> result string)
             (set_order : list string -> list string)
             (project_web_url : string)
             (reviewer_username reviewed_username : option string)
             (pages : list (list MergeRequest)),
        (forall base head path,
            is_ok (get_git_diff git1 base head path) = true) ->
        (forall base head path,
            is_ok (get_git_diff git2 base head path) = true) ->
        result_map (map without_diff)
          (extract_gitlab_conversations git1 convert_time_format set_order
             project_web_url reviewer_username reviewed_username pages)
        = result_map (map without_diff)
            (extract_gitlab_conversations git2 convert_time_format set_order
               project_web_url reviewer_username reviewed_username pages)).
Proof.
  split.
  - intros diff_text t ty pre h rest c old_line_info new_line_info
           Hsplit Hpass Hh Hold Hnew Hbad. cbn zeta.
    unfold extract_line_from_diff. rewrite Hsplit.
    destruct c as [o n]. rewrite (scan_after_passes _ _ _ _ _ _ _ _ Hpass).
    cbn [scan]. rewrite step_header by exact Hh.
    unfold parse_header, Py.index. rewrite Hold, Hnew. cbn [bind].
    assert (Hne : forall info i,
               nth_error (Py.split " "%char h) (S i) = Some info ->
               counter_text info <> h).
    { intros info i Hi E. apply counter_text_shorter in Hi.
      rewrite E in Hi. lia. }
    destruct (Py.int (counter_text old_line_info)) as [zo|eo] eqn:Eo.
    + cbn [is_ok andb] in Hbad. apply int_raises_value_error in Hbad.
      rewrite Hbad. cbn [bind is_ok].
      split; [reflexivity | eapply Hne; eassumption].
    + assert (Hr : is_ok (Py.int (counter_text old_line_info)) = false)
        by (rewrite Eo; reflexivity).
      apply int_raises_value_error in Hr. rewrite Hr in Eo.
      injection Eo as <-. cbn [bind is_ok].
      split; [reflexivity | eapply Hne; eassumption].
  - intros git1 git2 convert_time_format set_order project_web_url
           reviewer_username reviewed_username pages H1 H2.
    unfold extract_gitlab_conversations.
    apply while_pages_up_to_diff; [exact H1 | exact H2 | reflexivity].
Qed.

Lemma unparsable_header_raises_value_error_witness :
  (extract_line_from_diff
     ("@@ -1,1 +1,1 @@" ++ nl ++ " x" ++ nl ++ "@@ -7,1 +b,1 @@") 5 "old"
   = Raise (ValueError "b")
   /\ "b" <> "@@ -7,1 +b,1 @@")
  /\ extract_line_from_diff broken_header_diff 50 "new"
     = Raise (ValueError "a")
  /\ result_map (map without_diff)
       (extract_gitlab_conversations git_gives_broken_header keep_time
          listed_order example_url None (Some "C") [[mr_12]])
     = result_map (map without_diff)
         (extract_gitlab_conversations git_gives_hunk_10 keep_time
            listed_order example_url None (Some "C") [[mr_12]]).
Proof.
  split; [|split].
  - apply (proj1 unparsable_header_raises_value_error
             ("@@ -1,1 +1,1 @@" ++ nl ++ " x" ++ nl ++ "@@ -7,1 +b,1 @@")
             5 "old" ["@@ -1,1 +1,1 @@"; " x"] "@@ -7,1 +b,1 @@" []
             (Some 2, Some 2) "-7,1" "+b,1"); reflexivity.
  - reflexivity.
  - apply (proj2 unparsable_header_raises_value_error
             git_gives_broken_header git_gives_hunk_10 keep_time listed_order
             example_url None (Some "C") [[mr_12]]);
      intros base head path; reflexivity.
Defined.

(** * Properties of the diff retrieval *)

Lemma startswith_app (s p rest : string) :
  Py.startswith s p = true -> Py.startswith (s ++ rest) p = true.
Proof.
  unfold Py.startswith. revert s.
  induction p as [|c p IH]; intros s H.
  - destruct (s ++ rest); reflexivity.
  - destruct s as [|d s]; [discriminate H|].
    cbn [String.prefix append] in *.
    destruct (ascii_dec c d); [|discriminate H]. apply IH. exact H.
Qed.

Lemma join_starts_with_first (sep h p : string) (t : list string) :
  Py.startswith h p = true -> Py.startswith (Py.join sep (h :: t)) p = true.
Proof.
  intros H. unfold Py.join. cbn [String.concat].
  destruct t; [exact H | apply startswith_app; exact H].
Qed.

(** The slice [diff_lines[start_line:]] drops exactly the lines in front
    of the first hunk header. *)
Lemma skip_to_first_hunk (diff_lines : list string) :
  exists pre rest,
    diff_lines = (pre ++ rest)%list
    /\ Forall (fun l => Py.startswith l "@@" = false) pre
    /\ skipn (first_hunk_index diff_lines) diff_lines = rest
    /\ match rest with
       | [] => True
       | h :: _ => Py.startswith h "@@" = true
       end.
Proof.
  induction diff_lines as [|l ls IH].
  - exists [], []. repeat split. constructor.
  - cbn [first_hunk_index]. destruct (Py.startswith l "@@") eqn:E.
    + exists [], (l :: ls). repeat split; [constructor | exact E].
    + destruct IH as (pre & rest & Heq & Hpre & Hskip & Hrest).
      exists (l :: pre), rest. cbn [skipn app].
      repeat split; [now rewrite Heq | now constructor | exact Hskip | exact Hrest].
Qed.

(** C10, as stated, fails on the code: a null byte in the path makes
    [subprocess.run] raise [ValueError] before git is started; the
    exception is not caught, so [get_git_diff] returns neither [None] nor
    a text. *)
Lemma get_git_diff_lets_other_errors_through :
  get_git_diff git_rejects_null_byte "1f3a" "9c2e" path_with_null_byte
  = Raise (ValueError "embedded null byte")
  /\ get_git_diff git_rejects_null_byte "1f3a" "9c2e" path_with_null_byte
     <> Ok None
  /\ forall text,
       get_git_diff git_rejects_null_byte "1f3a" "9c2e" path_with_null_byte
       <> Ok (Some text).
Proof.
  split; [reflexivity|]. split; [discriminate|]. intros text. discriminate.
Qed.

(** C10, amended: [get_git_diff] has three outcomes.  It returns [None]
    when the git command ends with a non-zero status.  It raises what
    [subprocess.run] raises otherwise, nothing of which is caught.  When
    the command returns, it returns the lines of the output from the first
    line that starts with '@@' on, joined by line feeds, every line in
    front of it dropped; the text returned starts with '@@', or it is the
    empty string, which happens exactly when no line of the output starts
    with '@@'. *)
Theorem get_git_diff_starts_at_first_hunk
    (git_diff_run : string -> string -> string -> completed)
    (base head path : string) :
  match git_diff_run base head path with
  | CalledProcessError => get_git_diff git_diff_run base head path = Ok None
  | OtherError e => get_git_diff git_diff_run base head path = Raise e
  | Completed stdout =>
      exists pre rest,
        Py.splitlines stdout = (pre ++ rest)%list
        /\ Forall (fun l => Py.startswith l "@@" = false) pre
        /\ get_git_diff git_diff_run base head path
           = Ok (Some (Py.join nl rest))
        /\ ((exists h t, rest = h :: t /\ Py.startswith h "@@" = true
                         /\ Py.startswith (Py.join nl rest) "@@" = true)
            \/ (rest = [] /\ Py.join nl rest = EmptyString))
  end.
Proof.
  unfold get_git_diff.
  destruct (git_diff_run base head path) as [stdout| |e];
    [|reflexivity|reflexivity].
  destruct (skip_to_first_hunk (Py.splitlines stdout))
    as (pre & rest & Heq & Hpre & Hskip & Hrest).
  exists pre, rest. unfold diff_from_first_hunk. cbn zeta. rewrite Hskip.
  repeat split; try assumption.
  destruct rest as [|h t].
  - right. split; reflexivity.
  - left. exists h, t.
    repeat split; [exact Hrest | apply join_starts_with_first; exact Hrest].
Qed.

(** * Properties of the normalizer *)

(** ** The order of timestamp strings *)

Lemma ascii_compare_lt_trans (a b c : ascii) :
  Ascii.compare a b = Lt -> Ascii.compare b c = Lt -> Ascii.compare a c = Lt.
Proof.
  unfold Ascii.compare. rewrite !N.compare_lt_iff. apply N.lt_trans.
Qed.

Lemma string_compare_lt_trans (x : string) :
  forall y z,
    String.compare x y = Lt -> String.compare y z = Lt ->
    String.compare x z = Lt.
Proof.
  induction x as [|a x IH]; intros [|b y] [|c z]; cbn [String.compare];
    try discriminate; try reflexivity.
  destruct (Ascii.compare a b) eqn:Eab; try discriminate;
    destruct (Ascii.compare b c) eqn:Ebc; try discriminate; intros H1 H2.
  - apply Ascii.compare_eq_iff in Eab, Ebc. subst.
    assert (E : Ascii.compare c c = Eq)
      by (unfold Ascii.compare; apply N.compare_refl).
    rewrite E. eapply IH; eassumption.
  - apply Ascii.compare_eq_iff in Eab. subst. rewrite Ebc. reflexivity.
  - apply Ascii.compare_eq_iff in Ebc. subst. rewrite Eab. reflexivity.
  - rewrite (ascii_compare_lt_trans _ _ _ Eab Ebc). reflexivity.
Qed.

Lemma ltb_leb (x y : string) : String.ltb x y = true -> String.leb x y = true.
Proof.
  unfold String.ltb, String.leb. destruct (String.compare x y); easy.
Qed.

Lemma not_ltb_leb (x y : string) :
  String.ltb x y = false -> String.leb y x = true.
Proof.
  unfold String.ltb, String.leb. rewrite (String.compare_antisym y x).
  destruct (String.compare x y); easy.
Qed.

Lemma ltb_leb_trans (x y z : string) :
  String.ltb x y = true -> String.leb y z = true -> String.ltb x z = true.
Proof.
  unfold String.ltb, String.leb. intros Hxy Hyz.
  destruct (String.compare x y) eqn:Exy; try discriminate.
  destruct (String.compare y z) eqn:Eyz; try discriminate.
  - apply String.compare_eq_iff in Eyz. subst. rewrite Exy. reflexivity.
  - rewrite (string_compare_lt_trans _ _ _ Exy Eyz). reflexivity.
Qed.

Lemma leb_trans (x y z : string) :
  String.leb x y = true -> String.leb y z = true -> String.leb x z = true.
Proof.
  intros Hxy Hyz. destruct (String.ltb x y) eqn:E.
  - apply ltb_leb. eapply ltb_leb_trans; eassumption.
  - apply not_ltb_leb in E.
    rewrite (String.leb_antisym _ _ Hxy E). exact Hyz.
Qed.

Lemma ltb_neq (x y : string) : String.ltb x y = true -> String.eqb y x = false.
Proof.
  unfold String.ltb. intros H. apply String.eqb_neq. intros ->.
  assert (E : String.compare x x = Eq).
  { pose proof (String.compare_antisym x x) as A.
    destruct (String.compare x x); try reflexivity; discriminate A. }
  rewrite E in H. discriminate H.
Qed.

(** ** [sorted] is ascending, stable, and a rearrangement *)

Lemma filter_none {A : Type} (f : A -> bool) (l : list A) :
  (forall z, In z l -> f z = false) -> filter f l = [].
Proof.
  induction l as [|a l IH]; intros H; cbn [filter]; [reflexivity|].
  rewrite (H a (or_introl eq_refl)). apply IH.
  intros z Hz. apply H. right. exact Hz.
Qed.

Section SortedFacts.
Context {A : Type} (key : A -> string).

Let le (a b : A) : Prop := String.leb (key a) (key b) = true.
Let has (k : string) (a : A) : bool := String.eqb (key a) k.

Lemma insert_perm (x : A) (xs : list A) : Permutation (x :: xs) (Py.insert key x xs).
Proof.
  induction xs as [|y ys IH]; cbn [Py.insert]; [reflexivity|].
  destruct (String.ltb (key x) (key y)); [reflexivity|].
  rewrite perm_swap. constructor. exact IH.
Qed.

Lemma insert_sorted (x : A) (xs : list A) :
  StronglySorted le xs -> StronglySorted le (Py.insert key x xs).
Proof.
  induction 1 as [|y ys Hs IH Hall]; cbn [Py.insert].
  - repeat constructor.
  - destruct (String.ltb (key x) (key y)) eqn:E.
    + constructor; [constructor; assumption|].
      constructor; [exact (ltb_leb _ _ E)|].
      eapply Forall_impl; [|exact Hall]. intros z Hz.
      exact (leb_trans _ _ _ (ltb_leb _ _ E) Hz).
    + constructor; [exact IH|].
      rewrite <- (insert_perm x ys).
      constructor; [exact (not_ltb_leb _ _ E) | exact Hall].
Qed.

(** An inserted element goes behind the elements that have its key. *)
Lemma insert_stable (k : string) (x : A) (xs : list A) :
  StronglySorted le xs ->
  filter (has k) (Py.insert key x xs) = (filter (has k) xs ++ filter (has k) [x])%list.
Proof.
  induction 1 as [|y ys Hs IH Hall]; cbn [Py.insert]; [reflexivity|].
  destruct (String.ltb (key x) (key y)) eqn:E.
  - cbn [filter app]. destruct (has k x) eqn:Hx; [|now rewrite app_nil_r].
    apply String.eqb_eq in Hx.
    assert (Hy : has k y = false).
    { unfold has. rewrite <- Hx. apply ltb_neq. exact E. }
    assert (Hys : filter (has k) ys = []).
    { apply filter_none. intros z Hz.
      rewrite Forall_forall in Hall.
      unfold has. rewrite <- Hx.
      exact (ltb_neq _ _ (ltb_leb_trans _ _ _ E (Hall z Hz))). }
    rewrite Hy, Hys. reflexivity.
  - cbn [filter]. rewrite IH. destruct (has k y); reflexivity.
Qed.

Lemma sorted_from (xs : list A) :
  forall acc,
    StronglySorted le acc ->
    StronglySorted le (fold_left (fun acc x => Py.insert key x acc) xs acc)
    /\ (forall k,
          filter (has k) (fold_left (fun acc x => Py.insert key x acc) xs acc)
          = (filter (has k) acc ++ filter (has k) xs)%list)
    /\ Permutation (acc ++ xs) (fold_left (fun acc x => Py.insert key x acc) xs acc).
Proof.
  induction xs as [|x xs IH]; intros acc Hacc; cbn [fold_left].
  - repeat split; [exact Hacc | intros k; now rewrite app_nil_r
                  | now rewrite app_nil_r].
  - destruct (IH (Py.insert key x acc) (insert_sorted x acc Hacc))
      as (Hs & Hf & Hp).
    repeat split; [exact Hs | |].
    + intros k. rewrite Hf, (insert_stable k x acc Hacc).
      rewrite <- app_assoc. f_equal.
      change (x :: xs) with ([x] ++ xs)%list. now rewrite filter_app.
    + rewrite <- Hp, <- (insert_perm x acc).
      rewrite <- Permutation_middle. reflexivity.
Qed.

Lemma sorted_spec (xs : list A) :
  StronglySorted le (Py.sorted key xs)
  /\ (forall k, filter (has k) (Py.sorted key xs) = filter (has k) xs)
  /\ Permutation xs (Py.sorted key xs).
Proof.
  destruct (sorted_from xs [] (SSorted_nil le)) as (Hs & Hf & Hp).
  repeat split; assumption.
Qed.

End SortedFacts.

(** ** The order of creation times *)

Lemma span_digits_spec (s : string) :
  s = fst (span_digits s) ++ snd (span_digits s)
  /\ all_digits (fst (span_digits s)) = true.
Proof.
  induction s as [|c s [IH1 IH2]]; cbn [span_digits]; [split; reflexivity|].
  destruct (Py.isdigit c) eqn:E; cbn [fst snd append all_digits].
  - rewrite E, IH2. split; [f_equal; exact IH1 | reflexivity].
  - split; reflexivity.
Qed.

Lemma field_spec (sep : ascii) (s d r : string) :
  field sep s = Some (d, r) ->
  s = d ++ String sep r /\ all_digits d = true.
Proof.
  unfold field. destruct (span_digits_spec s) as [H1 H2].
  destruct (span_digits s) as [ds rs]. cbn [fst snd] in *.
  destruct ds as [|c ds]; [discriminate|].
  destruct rs as [|c' rs]; [discriminate|].
  destruct (Ascii.eqb c' sep) eqn:E; [|discriminate].
  apply Ascii.eqb_eq in E. subst c'. intros H. injection H as <- <-.
  split; assumption.
Qed.

Lemma fields_spec (at_ : string) (Y M D h m s f : string) :
  fields at_ = Some [Y; M; D; h; m; s; f] ->
  at_ = Y ++ String "-" (M ++ String "-" (D ++ String "T" (h ++ String ":"
          (m ++ String ":" (s ++ String "." (f ++ String "Z" EmptyString))))))
  /\ Forall (fun x => all_digits x = true) [Y; M; D; h; m; s; f].
Proof.
  unfold fields.
  destruct (field "-" at_) as [[Y' r1]|] eqn:E1; [|discriminate].
  destruct (field "-" r1) as [[M' r2]|] eqn:E2; [|discriminate].
  destruct (field "T" r2) as [[D' r3]|] eqn:E3; [|discriminate].
  destruct (field ":" r3) as [[h' r4]|] eqn:E4; [|discriminate].
  destruct (field ":" r4) as [[m' r5]|] eqn:E5; [|discriminate].
  destruct (field "." r5) as [[s' r6]|] eqn:E6; [|discriminate].
  destruct (field "Z" r6) as [[f' r7]|] eqn:E7; [|discriminate].
  destruct r7; [|discriminate].
  intros H. injection H as <- <- <- <- <- <- <-.
  apply field_spec in E1, E2, E3, E4, E5, E6, E7.
  destruct E1 as [-> ?], E2 as [-> ?], E3 as [-> ?], E4 as [-> ?],
           E5 as [-> ?], E6 as [-> ?], E7 as [-> ?].
  split; [reflexivity|]. repeat constructor; assumption.
Qed.

Lemma fields_shape (at_ : string) (fs : list string) :
  fields at_ = Some fs -> exists Y M D h m s f, fs = [Y; M; D; h; m; s; f].
Proof.
  unfold fields.
  destruct (field "-" at_) as [[Y' r1]|]; [|discriminate].
  destruct (field "-" r1) as [[M' r2]|]; [|discriminate].
  destruct (field "T" r2) as [[D' r3]|]; [|discriminate].
  destruct (field ":" r3) as [[h' r4]|]; [|discriminate].
  destruct (field ":" r4) as [[m' r5]|]; [|discriminate].
  destruct (field "." r5) as [[s' r6]|]; [|discriminate].
  destruct (field "Z" r6) as [[f' r7]|]; [|discriminate].
  destruct r7; [|discriminate].
  intros H. injection H as <-. repeat eexists.
Qed.

Lemma compare_app (a b x y : string) :
  String.length a = String.length b ->
  String.compare (a ++ x) (b ++ y)
  = match String.compare a b with
    | Eq => String.compare x y
    | c => c
    end.
Proof.
  revert b. induction a as [|c a IH]; intros [|c' b] H; cbn in H;
    try discriminate H.
  - reflexivity.
  - cbn [append String.compare].
    destruct (Ascii.compare c c'); [apply IH; congruence | reflexivity..].
Qed.

Lemma ascii_compare_code (c c' : ascii) :
  Ascii.compare c c' = (Py.code c ?= Py.code c').
Proof. unfold Ascii.compare, Py.code. now rewrite N2Z.inj_compare. Qed.

Lemma isdigit_code (c : ascii) : Py.isdigit c = true -> 0 <= Py.code c - 48 <= 9.
Proof. unfold Py.isdigit. cbn zeta. lia. Qed.

Lemma number_bound (d : string) :
  all_digits d = true -> 0 <= number d < 10 ^ Z.of_nat (String.length d).
Proof.
  induction d as [|c d IH]; cbn [all_digits number String.length]; [lia|].
  intros H. apply andb_true_iff in H. destruct H as [Hc Hd].
  specialize (IH Hd). apply isdigit_code in Hc.
  rewrite Nat2Z.inj_succ, Z.pow_succ_r by lia. nia.
Qed.

Lemma digits_compare (a b : string) :
  all_digits a = true -> all_digits b = true ->
  String.length a = String.length b ->
  String.compare a b = (number a ?= number b).
Proof.
  revert b. induction a as [|c a IH]; intros [|c' b] Ha Hb Hl; cbn in Hl;
    try discriminate Hl.
  - reflexivity.
  - cbn [all_digits] in Ha, Hb. apply andb_true_iff in Ha, Hb.
    destruct Ha as [Hc Ha], Hb as [Hc' Hb].
    injection Hl as Hl. cbn [String.compare number]. rewrite <- Hl.
    pose proof (number_bound a Ha) as Ba.
    pose proof (number_bound b Hb) as Bb. rewrite <- Hl in Bb.
    apply isdigit_code in Hc, Hc'.
    rewrite ascii_compare_code.
    set (p := 10 ^ Z.of_nat (String.length a)) in *.
    destruct (Py.code c ?= Py.code c') eqn:E.
    + apply Z.compare_eq in E. rewrite E, Z.add_compare_mono_l.
      apply IH; assumption.
    + symmetry. apply Z.compare_lt_iff. change (Py.code c < Py.code c') in E.
      assert ((Py.code c - 48 + 1) * p <= (Py.code c' - 48) * p)
        by (apply Z.mul_le_mono_nonneg_r; lia).
      lia.
    + symmetry. apply Z.compare_gt_iff. change (Py.code c > Py.code c') in E.
      assert ((Py.code c' - 48 + 1) * p <= (Py.code c - 48) * p)
        by (apply Z.mul_le_mono_nonneg_r; lia).
      lia.
Qed.

Lemma compare_sep (c : ascii) (x y : string) :
  String.compare (String c x) (String c y) = String.compare x y.
Proof.
  cbn [String.compare]. rewrite ascii_compare_code, Z.compare_refl. reflexivity.
Qed.

Lemma fixed_width_compare (a b : string) :
  fixed_width a = true -> fixed_width b = true ->
  exists ia ib,
    instant a = Some ia /\ instant b = Some ib
    /\ String.compare a b = lex_compare ia ib.
Proof.
  unfold fixed_width, instant. intros Ha Hb.
  destruct (fields a) as [fa|] eqn:Ea; [|discriminate].
  destruct (fields b) as [fb|] eqn:Eb; [|discriminate].
  destruct (fields_shape _ _ Ea) as (Y & M & D & h & m & s & f & ->).
  destruct (fields_shape _ _ Eb) as (Y' & M' & D' & h' & m' & s' & f' & ->).
  cbn [same_widths] in Ha, Hb.
  repeat match goal with
         | H : _ && _ = true |- _ => apply andb_true_iff in H; destruct H
         | H : Nat.eqb _ _ = true |- _ => apply Nat.eqb_eq in H
         end.
  assert (L7 : String.length f = 3%nat) by assumption.
  assert (L7' : String.length f' = 3%nat) by assumption.
  rewrite L7, L7'. cbn [Nat.leb Nat.sub].
  eexists _, _. split; [reflexivity|]. split; [reflexivity|].
  destruct (fields_spec _ _ _ _ _ _ _ _ Ea) as [-> Fa].
  destruct (fields_spec _ _ _ _ _ _ _ _ Eb) as [-> Fb].
  repeat match goal with
         | H : Forall _ (_ :: _) |- _ => inversion H; subst; clear H
         | H : Forall _ [] |- _ => clear H
         end.
  cbn [lex_compare].
  repeat (rewrite compare_app by congruence; rewrite compare_sep;
          rewrite digits_compare by (assumption || congruence)).
  assert (Hf : (number f * 10 ^ Z.of_nat 3 ?= number f' * 10 ^ Z.of_nat 3)
               = (number f ?= number f')).
  { change (10 ^ Z.of_nat 3) with 1000.
    destruct (number f ?= number f') eqn:E.
    - apply Z.compare_eq in E. rewrite E. apply Z.compare_refl.
    - apply Z.compare_lt_iff. change (number f < number f') in E. lia.
    - apply Z.compare_gt_iff. change (number f > number f') in E. lia. }
  rewrite Hf. cbn [String.compare].
  repeat match goal with
         | |- context [match ?x ?= ?y with _ => _ end] =>
             destruct (x ?= y); try reflexivity
         end.
Qed.

Lemma lex_compare_refl (x : list Z) : lex_compare x x = Eq.
Proof.
  induction x as [|a x IH]; cbn [lex_compare]; [reflexivity|].
  now rewrite Z.compare_refl.
Qed.

Lemma lex_compare_eq (x y : list Z) : lex_compare x y = Eq -> x = y.
Proof.
  revert y. induction x as [|a x IH]; intros [|b y]; cbn [lex_compare];
    try discriminate; [reflexivity|].
  destruct (a ?= b) eqn:E; try discriminate.
  apply Z.compare_eq in E. intros H. rewrite E, (IH y H). reflexivity.
Qed.

Lemma leb_compare (a b : string) :
  String.leb a b = true <-> String.compare a b <> Gt.
Proof.
  unfold String.leb.
  destruct (String.compare a b); split; congruence.
Qed.

(** On creation times of the fixed layout the order of the texts is the
    order of the instants, and the same instant means the same text. *)
Lemma fixed_width_order (a b : Note) :
  fixed_width (created_at a) = true -> fixed_width (created_at b) = true ->
  (created_le a b <-> no_later a b)
  /\ (forall i, created_when i a = true -> created_when i b = true ->
        created_at a = created_at b).
Proof.
  intros Ha Hb.
  destruct (fixed_width_compare _ _ Ha Hb) as (ia & ib & Ea & Eb & Hc).
  unfold created_le, no_later, created_when. rewrite Ea, Eb. split.
  - rewrite leb_compare, Hc. reflexivity.
  - intros i Hia Hib.
    destruct (lex_compare ia i) eqn:Eia; try discriminate Hia.
    destruct (lex_compare ib i) eqn:Eib; try discriminate Hib.
    apply lex_compare_eq in Eia, Eib. subst ia ib.
    rewrite lex_compare_refl in Hc. apply String.compare_eq_iff. exact Hc.
Qed.

Lemma strongly_sorted_among {A : Type} (R R' : A -> A -> Prop) (l : list A) :
  (forall a b, In a l -> In b l -> R a b -> R' a b) ->
  StronglySorted R l -> StronglySorted R' l.
Proof.
  intros H Hs. induction Hs as [|a l Hs IH Hall]; [constructor|].
  constructor.
  - apply IH. intros x y Hx Hy. apply H; right; assumption.
  - rewrite Forall_forall in *. intros x Hx.
    apply H; [left; reflexivity | right; exact Hx | apply Hall; exact Hx].
Qed.

(** Among notes of the fixed layout, the notes created at one instant are
    the notes with one creation text. *)
Lemma created_when_is_a_text (i : list Z) (kept_ones : list Note) :
  (forall n, In n kept_ones -> fixed_width (created_at n) = true) ->
  (forall n, In n kept_ones -> created_when i n = false)
  \/ exists k, forall n, In n kept_ones ->
                  created_when i n = created_is k n.
Proof.
  intros Hfixed.
  destruct (existsb (created_when i) kept_ones) eqn:E.
  - right. apply existsb_exists in E. destruct E as (n0 & Hin0 & H0).
    exists (created_at n0). intros n Hin. unfold created_is.
    destruct (created_when i n) eqn:Hn.
    + symmetry. apply String.eqb_eq.
      exact (proj2 (fixed_width_order n n0 (Hfixed n Hin) (Hfixed n0 Hin0))
               i Hn H0).
    + symmetry. apply String.eqb_neq. intros Heq.
      unfold created_when in Hn, H0. rewrite Heq, H0 in Hn. discriminate Hn.
  - left. intros n Hin. destruct (created_when i n) eqn:Hn; [|reflexivity].
    assert (existsb (created_when i) kept_ones = true)
      by (apply existsb_exists; exists n; split; assumption).
    congruence.
Qed.

(** C9, as stated, fails on the code: of two notes a microsecond apart,
    the fraction of the second written with one digit and with six, the
    later one comes first, for the texts are compared and 'Z' sorts after
    the digits. *)
Lemma later_note_sorted_first :
  instant (created_at note_tenth) = Some [2024; 5; 1; 10; 0; 1; 100000]
  /\ instant (created_at note_tenth_later)
     = Some [2024; 5; 1; 10; 0; 1; 100001]
  /\ filter_and_sort_notes None (Some "C") [note_tenth; note_tenth_later]
     = [note_tenth_later; note_tenth]
  /\ ~ no_later note_tenth_later note_tenth.
Proof.
  split; [vm_compute; reflexivity|]. split; [vm_compute; reflexivity|].
  split; [vm_compute; reflexivity|].
  unfold no_later. intros H. vm_compute in H. apply H. reflexivity.
Qed.

(** C9, amended: for every list of notes, the notes [filter_and_sort_notes]
    keeps come out ascending by the text of their creation time, notes
    with the same text keep their listing order, and nothing is lost or
    added.  When every creation time has the fixed layout the hosting API
    writes, this is the order in time: the notes come out ascending by
    the instant of their creation, and notes created at the same instant
    keep their listing order.  The two notes A (t=2) and B (t=1) come out
    as B, A in whichever order they are listed. *)
Theorem normalizer_orders_by_creation_time :
  (forall reviewer_username reviewed_username notes,
      let conversation :=
        filter_and_sort_notes reviewer_username reviewed_username notes in
      StronglySorted created_le conversation
      /\ (forall k,
            filter (created_is k) conversation
            = filter (created_is k)
                (kept_notes reviewer_username reviewed_username notes))
      /\ Permutation (kept_notes reviewer_username reviewed_username notes)
           conversation)
  /\ (forall reviewer_username reviewed_username notes,
        (forall n, In n notes -> fixed_width (created_at n) = true) ->
        let conversation :=
          filter_and_sort_notes reviewer_username reviewed_username notes in
        StronglySorted no_later conversation
        /\ (forall i,
              filter (created_when i) conversation
              = filter (created_when i)
                  (kept_notes reviewer_username reviewed_username notes)))
  /\ filter_and_sort_notes None (Some "C") [note_A; note_B] = [note_B; note_A]
  /\ filter_and_sort_notes None (Some "C") [note_B; note_A] = [note_B; note_A].
Proof.
  assert (Hstring : forall r x notes,
             StronglySorted created_le (filter_and_sort_notes r x notes)
             /\ (forall k,
                   filter (created_is k) (filter_and_sort_notes r x notes)
                   = filter (created_is k) (kept_notes r x notes))
             /\ Permutation (kept_notes r x notes)
                  (filter_and_sort_notes r x notes)).
  { intros r x notes. unfold filter_and_sort_notes, kept_notes.
    destruct (forallb (is_author x) notes).
    - repeat split; [constructor | constructor].
    - exact (sorted_spec created_at (filter (kept r) notes)). }
  split; [exact Hstring|]. split; [|split; reflexivity].
  intros r x notes Hfixed. cbn zeta.
  destruct (Hstring r x notes) as (Hs & Hk & Hp).
  assert (Hkept : forall n, In n (kept_notes r x notes) ->
                    fixed_width (created_at n) = true).
  { intros n Hn. apply Hfixed. unfold kept_notes in Hn.
    destruct (forallb (is_author x) notes); [contradiction|].
    apply filter_In in Hn. exact (proj1 Hn). }
  assert (Hconv : forall n, In n (filter_and_sort_notes r x notes) ->
                    fixed_width (created_at n) = true).
  { intros n Hn. apply Hkept.
    exact (Permutation_in _ (Permutation_sym Hp) Hn). }
  split.
  - apply (strongly_sorted_among created_le); [|exact Hs].
    intros a b Ha Hb Hle.
    exact (proj1 (proj1 (fixed_width_order a b (Hconv a Ha) (Hconv b Hb))) Hle).
  - intros i.
    destruct (created_when_is_a_text i (kept_notes r x notes) Hkept)
      as [Hnone | [k Hsame]].
    + rewrite (filter_none _ (kept_notes r x notes) Hnone).
      apply filter_none. intros n Hn. apply Hnone.
      exact (Permutation_in _ (Permutation_sym Hp) Hn).
    + rewrite (filter_ext_in _ _ (kept_notes r x notes) Hsame).
      rewrite <- Hk. apply filter_ext_in. intros n Hn. apply Hsame.
      exact (Permutation_in _ (Permutation_sym Hp) Hn).
Qed.

Lemma normalizer_orders_by_creation_time_witness :
  StronglySorted no_later
    (filter_and_sort_notes None (Some "C") [note_A; note_B])
  /\ filter_and_sort_notes None (Some "C") [note_A; note_B]
     = [note_B; note_A].
Proof.
  split; [|reflexivity].
  apply (proj1 (proj2 normalizer_orders_by_creation_time) None (Some "C")
           [note_A; note_B]).
  intros n [<-|[<-|[]]]; reflexivity.
Defined.

(** * Properties of the conversation pipeline *)

Section PipelineFacts.
Variable git_diff_run : string -> string -> string -> completed.
Variable convert_time_format : string -> result string.
Variable set_order : list string -> list string.
Variable project_web_url : string.

Lemma get_notes_returns (conversation : list Note) :
  times_convert convert_time_format conversation ->
  exists out_notes, get_notes convert_time_format conversation = Ok out_notes.
Proof.
  induction conversation as [|note rest IH]; intros H; cbn [get_notes].
  - eexists; reflexivity.
  - destruct (H note (or_introl eq_refl)) as [t Ht]. rewrite Ht.
    destruct IH as [others Ho]; [intros n Hn; apply H; right; exact Hn|].
    rewrite Ho. eexists; reflexivity.
Qed.

(** The two fields of the record that depend on an anchor are decided by
    the position of the first note of the conversation alone. *)
Lemma conversation_record_anchor (merge_request_iid : Z) (first : Note)
    (rest : list Note) :
  times_convert convert_time_format (first :: rest) ->
  match position first with
  | None =>
      exists data,
        conversation_record git_diff_run convert_time_format set_order
          project_web_url merge_request_iid (first :: rest) = Ok data
        /\ diff_text data = None /\ discussion_range data = unset_range
  | Some p =>
      match get_git_diff git_diff_run (base_sha p) (head_sha p) (new_path p)
      with
      | Raise e =>
          conversation_record git_diff_run convert_time_format set_order
            project_web_url merge_request_iid (first :: rest) = Raise e
      | Ok _ =>
          match line_range p with
          | None =>
              conversation_record git_diff_run convert_time_format set_order
                project_web_url merge_request_iid (first :: rest)
              = Raise TypeError
          | Some range =>
              exists data,
                conversation_record git_diff_run convert_time_format set_order
                  project_web_url merge_request_iid (first :: rest) = Ok data
                /\ diff_text data = stored_diff git_diff_run p
                /\ discussion_range data = anchor_range range
          end
      end
  end.
Proof.
  intros H. destruct (get_notes_returns _ H) as [out_notes Hn].
  destruct (H first (or_introl eq_refl)) as [t Ht].
  unfold conversation_record, collect_conversation_data.
  cbn [Py.index nth_error bind]. rewrite Ht. cbn [bind]. rewrite Hn. cbn [bind].
  destruct (position first) as [p|].
  - unfold stored_diff.
    destruct (get_git_diff git_diff_run (base_sha p) (head_sha p) (new_path p))
      as [git_diff|e]; cbn [bind]; [|reflexivity].
    unfold get_line_and_type_from_position.
    destruct (line_range p) as [range|]; [|reflexivity].
    cbn [bind fst snd]. eexists. split; [reflexivity|]. split; reflexivity.
  - eexists. split; [reflexivity|]. split; reflexivity.
Qed.

End PipelineFacts.

Section PipelineClaims.
Variable git_diff_run : string -> string -> string -> completed.
Variable convert_time_format : string -> result string.
Variable set_order : list string -> list string.
Variable project_web_url : string.
Variables reviewer_username reviewed_username : option string.
Variable merge_request_iid : Z.

Lemma discussion_record_of_conversation
    (git : string -> string -> string -> completed)
    (discussion : list Note) (first : Note) (rest : list Note) :
  filter_and_sort_notes reviewer_username reviewed_username discussion
  = first :: rest ->
  discussion_record git convert_time_format set_order project_web_url
    reviewer_username reviewed_username merge_request_iid discussion
  = (data <- conversation_record git convert_time_format set_order
               project_web_url merge_request_iid (first :: rest) ;;
     Ok (Some data)).
Proof. intros H. unfold discussion_record. rewrite H. reflexivity. Qed.

(** C3, amended: for every discussion whose first kept note carries an
    anchor with a line range, the record's range is copied from the anchor.
    Each end takes the anchor's new line when its type is 'new' and its old
    line otherwise, together with the type; the two ends are read
    independently of each other.  The diff text plays no part: whatever
    [get_git_diff] returns, a text or [None], the range is the same, and
    the line resolver is not run. *)
Theorem range_copied_from_anchor
    (discussion : list Note) (first : Note) (rest : list Note)
    (p : Position) (range : LineRange) :
  filter_and_sort_notes reviewer_username reviewed_username discussion
  = first :: rest ->
  position first = Some p ->
  line_range p = Some range ->
  is_ok (get_git_diff git_diff_run (base_sha p) (head_sha p) (new_path p))
  = true ->
  times_convert convert_time_format (first :: rest) ->
  exists data,
    discussion_record git_diff_run convert_time_format set_order
      project_web_url reviewer_username reviewed_username merge_request_iid
      discussion = Ok (Some data)
    /\ diff_text data = stored_diff git_diff_run p
    /\ line (dr_start (discussion_range data)) = line (anchor_end (range_start range))
    /\ type (dr_start (discussion_range data)) = ep_type (range_start range)
    /\ line (dr_end (discussion_range data)) = line (anchor_end (range_end range))
    /\ type (dr_end (discussion_range data)) = ep_type (range_end range)
    /\ forall other_git,
         is_ok (get_git_diff other_git (base_sha p) (head_sha p) (new_path p))
         = true ->
         exists data',
           discussion_record other_git convert_time_format set_order
             project_web_url reviewer_username reviewed_username
             merge_request_iid discussion = Ok (Some data')
           /\ discussion_range data' = discussion_range data.
Proof.
  intros Hconv Hpos Hrange Hgit Htimes.
  assert (Hany : forall git,
             is_ok (get_git_diff git (base_sha p) (head_sha p) (new_path p))
             = true ->
             exists data,
               discussion_record git convert_time_format set_order
                 project_web_url reviewer_username reviewed_username
                 merge_request_iid discussion = Ok (Some data)
               /\ diff_text data = stored_diff git p
               /\ discussion_range data = anchor_range range).
  { intros git Hok.
    rewrite (discussion_record_of_conversation git _ _ _ Hconv).
    pose proof (conversation_record_anchor git convert_time_format set_order
                  project_web_url merge_request_iid first rest Htimes) as H.
    rewrite Hpos in H.
    destruct (get_git_diff git (base_sha p) (head_sha p) (new_path p));
      [|discriminate Hok].
    rewrite Hrange in H. destruct H as (data & Hd & Hdiff & Hr).
    exists data. rewrite Hd. repeat split; assumption. }
  destruct (Hany git_diff_run Hgit) as (data & Hd & Hdiff & Hr).
  exists data. rewrite Hr. repeat split; try assumption.
  intros other Hother. destruct (Hany other Hother) as (data' & Hd' & _ & Hr').
  exists data'. split; [exact Hd' | exact Hr'].
Qed.

(** C4, amended: the anchor behind a record is the position of the first
    note of the filtered, time-sorted conversation, not of the first note
    of the discussion as listed.  When that note carries no position, the
    record has no diff text and a range with every field [None], whatever
    the notes that were filtered out carry; when it carries one with a line
    range, the diff and the range come from it, whenever [get_git_diff]
    returns. *)
Theorem anchor_taken_from_first_kept_note
    (discussion : list Note) (first : Note) (rest : list Note) :
  filter_and_sort_notes reviewer_username reviewed_username discussion
  = first :: rest ->
  times_convert convert_time_format (first :: rest) ->
  match position first with
  | None =>
      exists data,
        discussion_record git_diff_run convert_time_format set_order
          project_web_url reviewer_username reviewed_username
          merge_request_iid discussion = Ok (Some data)
        /\ diff_text data = None /\ discussion_range data = unset_range
  | Some p =>
      forall range, line_range p = Some range ->
        is_ok (get_git_diff git_diff_run (base_sha p) (head_sha p)
                 (new_path p)) = true ->
        exists data,
          discussion_record git_diff_run convert_time_format set_order
            project_web_url reviewer_username reviewed_username
            merge_request_iid discussion = Ok (Some data)
          /\ diff_text data = stored_diff git_diff_run p
          /\ discussion_range data = anchor_range range
  end.
Proof.
  intros Hconv Htimes.
  rewrite (discussion_record_of_conversation git_diff_run _ _ _ Hconv).
  pose proof (conversation_record_anchor git_diff_run convert_time_format
                set_order project_web_url merge_request_iid first rest Htimes)
    as H.
  destruct (position first) as [p|].
  - intros range Hrange Hok.
    destruct (get_git_diff git_diff_run (base_sha p) (head_sha p) (new_path p));
      [|discriminate Hok].
    rewrite Hrange in H.
    destruct H as (data & Hd & Hdiff & Hr).
    exists data. rewrite Hd. repeat split; assumption.
  - destruct H as (data & Hd & Hdiff & Hr).
    exists data. rewrite Hd. repeat split; assumption.
Qed.


End PipelineClaims.

(** C3, as stated, fails on the code: the diff is fetched and the
    resolver finds nothing at new line 50 in it, yet the record's range
    starts at line 50, as the anchor says. *)
Lemma range_not_resolved_from_diff :
  exists data,
    discussion_record git_gives_hunk_10 keep_time listed_order example_url
      None (Some "C") 12 [anchored_A; reply_B] = Ok (Some data)
    /\ diff_text data = Some hunk_10
    /\ extract_line_from_diff hunk_10 50 "new" = Ok None
    /\ extract_line_from_diff hunk_10 52 "new" = Ok None
    /\ discussion_range data
       = {| dr_start := {| line := Some 50; type := Some "new" |};
            dr_end := {| line := Some 52; type := Some "new" |} |}.
Proof.
  eexists. split; [reflexivity|]. repeat split.
Qed.

Lemma range_copied_from_anchor_witness :
  exists data,
    discussion_record git_gives_hunk_10 keep_time listed_order example_url
      None (Some "C") 12 [anchored_A; reply_B] = Ok (Some data)
    /\ line (dr_start (discussion_range data)) = Some 50
    /\ line (dr_end (discussion_range data)) = Some 52.
Proof.
  destruct (range_copied_from_anchor git_gives_hunk_10 keep_time listed_order
              example_url None (Some "C") 12 [anchored_A; reply_B]
              anchored_A [reply_B] anchor_50 range_50
              eq_refl eq_refl eq_refl eq_refl
              (fun note _ => ex_intro _ (created_at note) eq_refl))
    as (data & Hd & _ & Hs & _ & He & _).
  exists data. split; [exact Hd|]. split; [exact Hs | exact He].
Defined.

(** C4, as stated, fails on the code: the first note as listed carries an
    anchor, the reviewer filter removes that note, and the record then has
    no diff text and a range with every field [None]. *)
Lemma anchor_lost_with_filtered_note :
  position anchored_A = Some anchor_50
  /\ filter_and_sort_notes (Some "B") (Some "C") [anchored_A; reply_B] = [reply_B]
  /\ exists data,
       discussion_record git_gives_hunk_10 keep_time listed_order example_url
         (Some "B") (Some "C") 12 [anchored_A; reply_B] = Ok (Some data)
       /\ diff_text data = None
       /\ discussion_range data = unset_range.
Proof.
  split; [reflexivity|]. split; [reflexivity|].
  eexists. split; [reflexivity|]. split; reflexivity.
Qed.

Lemma anchor_taken_from_first_kept_note_witness :
  exists data,
    discussion_record git_gives_hunk_10 keep_time listed_order example_url
      (Some "B") (Some "C") 12 [anchored_A; reply_B] = Ok (Some data)
    /\ diff_text data = None /\ discussion_range data = unset_range.
Proof.
  exact (anchor_taken_from_first_kept_note git_gives_hunk_10 keep_time
           listed_order example_url (Some "B") (Some "C") 12
           [anchored_A; reply_B] reply_B [] eq_refl (fun note _ => ex_intro _ (created_at note) eq_refl)).
Defined.



(** * Properties of the analysis stage *)

Section AnalyzeFacts.
Variable analyze_review_discussion :
  string -> option string -> DiscussionRange -> result string.
Variable str_exn : exn -> string.

(** A record whose summary fails stays in the list as it was. *)
Lemma analyze_loop_keeps_failed (data : ConversationData) (e : exn)
    (conversation_data : list ConversationData) :
  In data conversation_data ->
  analyze_review_discussion (conversation_text data) (diff_text data)
    (discussion_range data) = Raise e ->
  In data (fst (analyze_loop analyze_review_discussion str_exn conversation_data)).
Proof.
  intros Hin Hfail. induction conversation_data as [|d rest IH]; [contradiction|].
  cbn [analyze_loop]. destruct (in_inv Hin) as [->|Hrest].
  - rewrite Hfail. cbn [fst In]. left. reflexivity.
  - destruct (analyze_review_discussion (conversation_text d) (diff_text d)
                (discussion_range d));
      cbn [fst In]; right; apply IH; exact Hrest.
Qed.

(** The first loop still visits every record. *)
Lemma analyze_loop_length (conversation_data : list ConversationData) :
  List.length (fst (analyze_loop analyze_review_discussion str_exn conversation_data))
  = List.length conversation_data.
Proof.
  induction conversation_data as [|d rest IH]; [reflexivity|].
  cbn [analyze_loop].
  destruct (analyze_review_discussion (conversation_text d) (diff_text d)
              (discussion_range d));
    cbn [fst List.length]; now rewrite IH.
Qed.

(** The second loop stops at the first record without the key. *)
Lemma print_rows_raises (conversation_data : list ConversationData) :
  (exists data, In data conversation_data /\ analyze data = None) ->
  snd (print_rows conversation_data) = Some (KeyError "analyze").
Proof.
  induction conversation_data as [|d rest IH]; intros (data & Hin & Hnone).
  - contradiction.
  - cbn [print_rows]. unfold table_row, get_analyze.
    destruct (analyze d) as [a|] eqn:Ed; cbn [bind].
    + cbn [snd]. apply IH. exists data. split; [|exact Hnone].
      destruct (in_inv Hin) as [->|Hrest]; [congruence | exact Hrest].
    + reflexivity.
Qed.

(** One failed summary on a record that had none ends the run with a
    [KeyError] before any CSV row is written. *)
Lemma failed_summary_ends_run (data : ConversationData) (e : exn)
    (conversation_data : list ConversationData) (result_csv_file : option string) :
  In data conversation_data ->
  analyze data = None ->
  analyze_review_discussion (conversation_text data) (diff_text data)
    (discussion_range data) = Raise e ->
  let run := print_analyze analyze_review_discussion str_exn conversation_data
               result_csv_file in
  raised run = Some (KeyError "analyze") /\ csv_rows run = None.
Proof.
  intros Hin Hnone Hfail. cbn zeta. unfold print_analyze.
  rewrite print_rows_raises; [split; reflexivity|].
  exists data. split; [|exact Hnone].
  eapply analyze_loop_keeps_failed; eassumption.
Qed.

End AnalyzeFacts.

(** C6, on the code: the summary of the first record fails.  The failure
    is caught, that record keeps no summary and the second record is still
    summarized; but the table loop then reads the missing summary of the
    first record, the run ends with [KeyError], no row is printed and the
    CSV file is never written. *)
Theorem failed_summary_aborts_the_output :
  let run := print_analyze summary_needs_diff exn_text
               [record_without_diff; record_with_diff] (Some "result.csv") in
  map analyze (data_after run) = [None; Some "rename before merging"]
  /\ raised run = Some (KeyError "analyze")
  /\ csv_rows run = None
  /\ printed run
     = ["print_analyze error: " ++ quote ++ "rate limit reached" ++ quote;
        table_header].
Proof. cbn zeta. repeat split. Qed.

(** * Further properties of the line resolver *)

Lemma scan_returns_within_prefix (t : Z) (ty text : string)
    (pre rest : list string) :
  forall c1 c2,
    scan t ty pre c1 c2 = Ok (Some text) ->
    scan t ty (pre ++ rest) c1 c2 = Ok (Some text).
Proof.
  induction pre as [|l pre IH]; intros c1 c2 H; cbn [scan app] in *.
  - discriminate H.
  - destruct (step t ty c1 c2 l) as [[o n|found]|e];
      [apply IH; exact H | exact H | discriminate H].
Qed.

Lemma split_app (sep : ascii) (a b : string) :
  Py.split sep (a ++ String sep b) = (Py.split sep a ++ Py.split sep b)%list.
Proof.
  induction a as [|c a IH]; cbn [append Py.split].
  - rewrite Ascii.eqb_refl. reflexivity.
  - rewrite IH. destruct (Ascii.eqb c sep); [reflexivity|].
    destruct (Py.split sep a) as [|w ws] eqn:E; [|reflexivity].
    exfalso. exact (split_nonempty _ _ E).
Qed.

(** X1: with a [line_type] that is neither 'new' nor 'old' the resolver
    never returns a line; it returns [None] whenever every hunk header of
    the text parses. *)
Theorem other_line_type_finds_nothing
    (diff_text : string) (t : Z) (ty : string) :
  String.eqb ty "new" = false ->
  String.eqb ty "old" = false ->
  (forall text, extract_line_from_diff diff_text t ty <> Ok (Some text))
  /\ (headers_parse (Py.split "010"%char diff_text) = true ->
      extract_line_from_diff diff_text t ty = Ok None).
Proof.
  intros Hnew Hold. unfold extract_line_from_diff.
  generalize (Py.split "010"%char diff_text) as lines.
  generalize (@None Z) at 1 3 as c1. generalize (@None Z) as c2.
  intros c2 c1 lines. revert c1 c2.
  induction lines as [|l lines IH]; intros c1 c2; cbn [scan].
  - split; [discriminate | reflexivity].
  - unfold step. rewrite Hnew, Hold.
    destruct (Py.startswith l "@@") eqn:Hh.
    + destruct (parse_header l) as [p|e] eqn:Hp; cbn [bind].
      * destruct (IH (Some (fst p)) (Some (snd p))) as [Hn Hok].
        split; [exact Hn|]. intros Hall. apply Hok.
        cbn [headers_parse forallb] in Hall.
        apply andb_true_iff in Hall. exact (proj2 Hall).
      * split; [discriminate|]. intros Hall.
        cbn [headers_parse forallb] in Hall. rewrite Hh, Hp in Hall.
        discriminate Hall.
    + destruct (IH c1 c2) as [Hn Hok]. split; [exact Hn|].
      intros Hall. apply Hok. cbn [headers_parse forallb] in Hall.
      apply andb_true_iff in Hall. exact (proj2 Hall).
Qed.

Lemma other_line_type_finds_nothing_witness :
  (forall text, extract_line_from_diff hunk_10 11 "both" <> Ok (Some text))
  /\ (headers_parse (Py.split "010"%char hunk_10) = true ->
      extract_line_from_diff hunk_10 11 "both" = Ok None).
Proof.
  apply (other_line_type_finds_nothing hunk_10 11 "both"); reflexivity.
Defined.

(** X2: a hunk header with fewer than three blank-separated fields, once
    the scan reaches it, ends the resolver with [IndexError]. *)
Theorem short_header_raises_index_error
    (diff_text : string) (t : Z) (ty : string)
    (pre : list string) (h : string) (rest : list string)
    (c : option Z * option Z) :
  Py.split "010"%char diff_text = (pre ++ h :: rest)%list ->
  passes t ty pre None None = Some c ->
  Py.startswith h "@@" = true ->
  (List.length (Py.split " "%char h) <? 3)%nat = true ->
  extract_line_from_diff diff_text t ty = Raise IndexError.
Proof.
  intros Hsplit Hpass Hh Hshort. unfold extract_line_from_diff.
  rewrite Hsplit. destruct c as [o n].
  rewrite (scan_after_passes _ _ _ _ _ _ _ _ Hpass).
  cbn [scan]. rewrite step_header by exact Hh.
  unfold parse_header, Py.index. apply Nat.ltb_lt in Hshort.
  destruct (Py.split " "%char h) as [|f0 [|f1 [|f2 fs]]];
    cbn [nth_error bind List.length] in *; try reflexivity; lia.
Qed.

Lemma short_header_raises_index_error_witness :
  extract_line_from_diff ("@@ -1,2 +1,2 @@" ++ nl ++ " a" ++ nl ++ "@@ -9,2") 7 "new"
  = Raise IndexError.
Proof.
  apply (short_header_raises_index_error _ 7 "new"
           ["@@ -1,2 +1,2 @@"; " a"] "@@ -9,2" [] (Some 2, Some 2));
    reflexivity.
Defined.

(** X3: the first match wins and nothing behind it is read: when the
    resolver returns a line for a text, it returns the same line for that
    text followed by a line feed and any further text, well-formed or
    not. *)
Theorem text_after_match_is_not_read
    (diff_text more : string) (t : Z) (ty text : string) :
  extract_line_from_diff diff_text t ty = Ok (Some text) ->
  extract_line_from_diff (diff_text ++ nl ++ more) t ty = Ok (Some text).
Proof.
  unfold extract_line_from_diff, nl. intros H.
  change (String "010"%char EmptyString ++ more) with (String "010"%char more).
  rewrite split_app. apply scan_returns_within_prefix. exact H.
Qed.

Lemma text_after_match_is_not_read_witness :
  extract_line_from_diff (hunk_10 ++ nl ++ "@@ broken") 12 "new"
  = Ok (Some "added1").
Proof.
  apply (text_after_match_is_not_read hunk_10 "@@ broken" 12 "new" "added1").
  reflexivity.
Defined.

(** X4: a hunk header sets both counters anew.  When no line of a first
    text matches or raises, resolving in that text followed by a second
    text that begins with a header gives what resolving in the second text
    alone gives. *)
Theorem header_resets_counters
    (first second : string) (t : Z) (ty : string)
    (c : option Z * option Z) (h : string) (rest : list string) :
  passes t ty (Py.split "010"%char first) None None = Some c ->
  Py.split "010"%char second = h :: rest ->
  Py.startswith h "@@" = true ->
  extract_line_from_diff (first ++ nl ++ second) t ty
  = extract_line_from_diff second t ty.
Proof.
  intros Hpass Hsplit Hh. unfold extract_line_from_diff, nl.
  change (String "010"%char EmptyString ++ second)
    with (String "010"%char second).
  rewrite split_app, Hsplit. destruct c as [o n].
  rewrite (scan_after_passes _ _ _ _ _ _ _ _ Hpass).
  cbn [scan]. rewrite !step_header by exact Hh. reflexivity.
Qed.

Lemma header_resets_counters_witness :
  extract_line_from_diff
    (("@@ -100,2 +100,2 @@" ++ nl ++ " far") ++ nl ++ hunk_10) 12 "new"
  = extract_line_from_diff hunk_10 12 "new".
Proof.
  apply (header_resets_counters ("@@ -100,2 +100,2 @@" ++ nl ++ " far")
           hunk_10 12 "new" (Some 101, Some 101) "@@ -10,3 +10,4 @@"
           [" context1"; "+added1"; " context2"]); reflexivity.
Defined.

Lemma startswith_char (l : string) (c : ascii) :
  Py.startswith l (String c EmptyString) = true -> exists l', l = String c l'.
Proof.
  unfold Py.startswith. destruct l as [|d l']; cbn [String.prefix]; [discriminate|].
  destruct (ascii_dec c d) as [->|]; [|discriminate]. intros _. eexists; reflexivity.
Qed.

(** X5: the comparison is made after every content line, also after one
    that did not advance the counter of the requested side.  So a Removed
    line that directly follows a header is returned for the New side at the
    header's own new counter, and an Added line there is returned for the
    Old side at the header's old counter. *)
Theorem line_of_other_side_matched_at_header_counter
    (diff_text h l : string) (rest : list string) (o n : Z) :
  Py.split "010"%char diff_text = h :: l :: rest ->
  Py.startswith h "@@" = true ->
  parse_header h = Ok (o, n) ->
  (Py.startswith l "-" = true ->
   extract_line_from_diff diff_text n "new" = Ok (Some (Py.strip (Py.tail l))))
  /\ (Py.startswith l "+" = true ->
      extract_line_from_diff diff_text o "old" = Ok (Some (Py.strip (Py.tail l)))).
Proof.
  intros Hsplit Hh Hp. unfold extract_line_from_diff. rewrite Hsplit.
  cbn [scan]. rewrite !step_header, Hp by exact Hh. cbn [bind fst snd].
  split; intros Hl; destruct (startswith_char _ _ Hl) as [l' ->].
  - rewrite step_new_removed; [|reflexivity|reflexivity|exact Hl].
    cbn [cursor_is]. rewrite Z.eqb_refl. reflexivity.
  - rewrite step_old_added; [|reflexivity|reflexivity|exact Hl].
    cbn [cursor_is]. rewrite Z.eqb_refl. reflexivity.
Qed.

Lemma line_of_other_side_matched_at_header_counter_witness :
  extract_line_from_diff ("@@ -4,2 +4,1 @@" ++ nl ++ "-gone" ++ nl ++ " kept") 4 "new"
  = Ok (Some "gone").
Proof.
  apply (line_of_other_side_matched_at_header_counter
           ("@@ -4,2 +4,1 @@" ++ nl ++ "-gone" ++ nl ++ " kept")
           "@@ -4,2 +4,1 @@" "-gone" [" kept"] 4 4); reflexivity.
Defined.

(** X6: a text whose first line is no hunk header raises [TypeError] at
    that line, unless the line is one that leaves the counters alone (a
    '-' line on the New side, a '+' line on the Old side): the counters are
    still [None] when they are to be advanced. *)
Theorem content_before_header_raises_type_error
    (diff_text : string) (t : Z) (l : string) (rest : list string) :
  Py.split "010"%char diff_text = l :: rest ->
  Py.startswith l "@@" = false ->
  (Py.startswith l "-" = false ->
   extract_line_from_diff diff_text t "new" = Raise TypeError)
  /\ (Py.startswith l "+" = false ->
      extract_line_from_diff diff_text t "old" = Raise TypeError).
Proof.
  intros Hsplit Hc. unfold extract_line_from_diff. rewrite Hsplit.
  cbn [scan]. unfold step. rewrite Hc.
  split; intros Hl; cbn [String.eqb Ascii.eqb Bool.eqb]; rewrite Hl.
  - destruct (Py.startswith l "+"); reflexivity.
  - destruct (Py.startswith l "-"); reflexivity.
Qed.

Lemma content_before_header_raises_type_error_witness :
  extract_line_from_diff ("index 83db48f..bf269f4" ++ nl ++ hunk_10) 11 "new"
  = Raise TypeError.
Proof.
  apply (content_before_header_raises_type_error
           ("index 83db48f..bf269f4" ++ nl ++ hunk_10) 11
           "index 83db48f..bf269f4"
           ["@@ -10,3 +10,4 @@"; " context1"; "+added1"; " context2"]);
    reflexivity.
Defined.

Lemma rstrip_cons (c : ascii) (s : string) :
  Py.rstrip (String c s)
  = match Py.rstrip s with
    | EmptyString => if Py.isspace c then EmptyString else String c EmptyString
    | kept => String c kept
    end.
Proof. reflexivity. Qed.

Lemma rstrip_idempotent (s : string) : Py.rstrip (Py.rstrip s) = Py.rstrip s.
Proof.
  induction s as [|c s IH]; [reflexivity|].
  rewrite (rstrip_cons c s). destruct (Py.rstrip s) as [|d k] eqn:E.
  - destruct (Py.isspace c) eqn:Ec; [reflexivity|].
    rewrite rstrip_cons. cbn [Py.rstrip]. rewrite Ec. reflexivity.
  - rewrite rstrip_cons, IH. reflexivity.
Qed.

Lemma lstrip_head (s : string) :
  Py.lstrip s = EmptyString
  \/ exists c r, Py.lstrip s = String c r /\ Py.isspace c = false.
Proof.
  induction s as [|c s IH]; [left; reflexivity|]. cbn [Py.lstrip].
  destruct (Py.isspace c) eqn:E; [exact IH|].
  right. exists c, s. split; [reflexivity | exact E].
Qed.

Lemma strip_idempotent (s : string) : Py.strip (Py.strip s) = Py.strip s.
Proof.
  unfold Py.strip. destruct (lstrip_head s) as [->|(c & r & -> & Hc)];
    [reflexivity|].
  assert (H : exists k, Py.rstrip (String c r) = String c k).
  { cbn [Py.rstrip]. destruct (Py.rstrip r); [rewrite Hc|]; eexists; reflexivity. }
  destruct H as [k Hk].
  rewrite <- (rstrip_idempotent (String c r)) at 2.
  rewrite Hk. cbn [Py.lstrip]. rewrite Hc. reflexivity.
Qed.

Lemma scan_result_is_a_stripped_line (t : Z) (ty text : string)
    (lines : list string) :
  forall c1 c2,
    scan t ty lines c1 c2 = Ok (Some text) ->
    exists l, In l lines /\ Py.startswith l "@@" = false
              /\ text = Py.strip (Py.tail l).
Proof.
  induction lines as [|l lines IH]; intros c1 c2 H; cbn [scan] in H.
  - discriminate H.
  - destruct (step t ty c1 c2 l) as [[o n|found]|e] eqn:E; [| |discriminate H].
    + destruct (IH _ _ H) as (l' & Hin & Hc & Ht).
      exists l'. split; [right; exact Hin | split; assumption].
    + injection H as <-. exists l. split; [left; reflexivity|].
      unfold step in E. destruct (Py.startswith l "@@").
      * destruct (parse_header l); discriminate E.
      * split; [reflexivity|].
        destruct (String.eqb ty "new").
        -- match type of E with
           | (c <- ?m ;; _) = _ => destruct m as [cur|]; [|discriminate E]
           end.
           cbn [bind] in E. destruct (cursor_is (snd cur) t); [|discriminate E].
           injection E as <-. reflexivity.
        -- destruct (String.eqb ty "old"); [|discriminate E].
           match type of E with
           | (c <- ?m ;; _) = _ => destruct m as [cur|]; [|discriminate E]
           end.
           cbn [bind] in E. destruct (cursor_is (fst cur) t); [|discriminate E].
           injection E as <-. reflexivity.
Qed.

(** X7: whatever the text, every line the resolver returns is the text of
    a content line of the input (never of a header) without its first
    character, and carries no white space at either end: stripping it
    again changes nothing. *)
Theorem returned_line_is_stripped_content
    (diff_text : string) (t : Z) (ty text : string) :
  extract_line_from_diff diff_text t ty = Ok (Some text) ->
  Py.strip text = text
  /\ exists l, In l (Py.split "010"%char diff_text)
               /\ Py.startswith l "@@" = false
               /\ text = Py.strip (Py.tail l).
Proof.
  intros H. destruct (scan_result_is_a_stripped_line _ _ _ _ _ _ H)
    as (l & Hin & Hc & ->).
  split; [apply strip_idempotent|]. exists l. split; [exact Hin|].
  split; [exact Hc | reflexivity].
Qed.

Lemma returned_line_is_stripped_content_witness :
  Py.strip "added1" = "added1"
  /\ exists l, In l (Py.split "010"%char hunk_10)
               /\ Py.startswith l "@@" = false
               /\ "added1" = Py.strip (Py.tail l).
Proof.
  apply (returned_line_is_stripped_content hunk_10 12 "new" "added1").
  reflexivity.
Defined.

Lemma scan_new_below (t : Z) (lines : list string) :
  hunks_start_above t true lines = true ->
  forall o n, t < n -> scan t "new" lines (Some o) (Some n) = Ok None.
Proof.
  induction lines as [|l lines IH]; intros Hall o n Hlt; [reflexivity|].
  cbn [hunks_start_above forallb] in Hall. apply andb_true_iff in Hall.
  destruct Hall as [Hl Hrest]. cbn [scan].
  destruct (Py.startswith l "@@") eqn:Hh.
  - cbn [negb orb] in Hl. rewrite step_header by exact Hh.
    destruct (parse_header l) as [[o' n']|e]; [|discriminate Hl].
    cbn [bind fst snd]. apply IH; [exact Hrest | lia].
  - destruct (Py.startswith l "+") eqn:Hplus.
    + rewrite step_new_added by assumption.
      destruct (n + 1 =? t) eqn:E; [lia|]. apply IH; [exact Hrest | lia].
    + destruct (Py.startswith l "-") eqn:Hminus.
      * rewrite step_new_removed by assumption. cbn [cursor_is].
        destruct (n =? t) eqn:E; [lia|]. apply IH; [exact Hrest | lia].
      * rewrite step_new_context by assumption.
        destruct (n + 1 =? t) eqn:E; [lia|]. apply IH; [exact Hrest | lia].
Qed.

Lemma scan_old_below (t : Z) (lines : list string) :
  hunks_start_above t false lines = true ->
  forall o n, t < o -> scan t "old" lines (Some o) (Some n) = Ok None.
Proof.
  induction lines as [|l lines IH]; intros Hall o n Hlt; [reflexivity|].
  cbn [hunks_start_above forallb] in Hall. apply andb_true_iff in Hall.
  destruct Hall as [Hl Hrest]. cbn [scan].
  destruct (Py.startswith l "@@") eqn:Hh.
  - cbn [negb orb] in Hl. rewrite step_header by exact Hh.
    destruct (parse_header l) as [[o' n']|e]; [|discriminate Hl].
    cbn [bind fst snd]. apply IH; [exact Hrest | lia].
  - destruct (Py.startswith l "-") eqn:Hminus.
    + rewrite step_old_removed by assumption.
      destruct (o + 1 =? t) eqn:E; [lia|]. apply IH; [exact Hrest | lia].
    + destruct (Py.startswith l "+") eqn:Hplus.
      * rewrite step_old_added by assumption. cbn [cursor_is].
        destruct (o =? t) eqn:E; [lia|]. apply IH; [exact Hrest | lia].
      * rewrite step_old_context by assumption.
        destruct (o + 1 =? t) eqn:E; [lia|]. apply IH; [exact Hrest | lia].
Qed.

(** X8: the counters only grow inside a hunk.  In a text that begins with
    a header, a target line below the start of every hunk on the requested
    side is not found: the resolver returns [None]. *)
Theorem target_below_every_hunk_is_not_found
    (diff_text : string) (t : Z) (h : string) (rest : list string) :
  Py.split "010"%char diff_text = h :: rest ->
  Py.startswith h "@@" = true ->
  (hunks_start_above t true (h :: rest) = true ->
   extract_line_from_diff diff_text t "new" = Ok None)
  /\ (hunks_start_above t false (h :: rest) = true ->
      extract_line_from_diff diff_text t "old" = Ok None).
Proof.
  intros Hsplit Hh. unfold extract_line_from_diff. rewrite Hsplit.
  split; intros Hall; assert (Hall' := Hall);
    cbn [hunks_start_above forallb] in Hall; apply andb_true_iff in Hall;
    destruct Hall as [Hl Hrest]; rewrite Hh in Hl; cbn [negb orb] in Hl;
    cbn [scan]; rewrite step_header by exact Hh;
    destruct (parse_header h) as [[o n]|e]; try discriminate Hl;
    cbn [bind fst snd].
  - apply scan_new_below; [exact Hrest | lia].
  - apply scan_old_below; [exact Hrest | lia].
Qed.

Lemma target_below_every_hunk_is_not_found_witness :
  extract_line_from_diff hunk_10 9 "old" = Ok None.
Proof.
  apply (target_below_every_hunk_is_not_found hunk_10 9 "@@ -10,3 +10,4 @@"
           [" context1"; "+added1"; " context2"]); reflexivity.
Defined.

(** * Further properties of the diff retrieval *)

Lemma split_without_separator (sep : ascii) (s : string) :
  contains sep s = false -> Py.split sep s = [s].
Proof.
  induction s as [|c s IH]; cbn [contains Py.split]; [reflexivity|].
  intros H. apply orb_false_iff in H. destruct H as [Hc Hs].
  rewrite Hc, (IH Hs). reflexivity.
Qed.

Lemma split_join (lines : list string) :
  lines <> [] ->
  (forall l, In l lines -> contains "010"%char l = false) ->
  Py.split "010"%char (Py.join nl lines) = lines.
Proof.
  induction lines as [|l lines IH]; intros Hne Hall; [contradiction|].
  unfold Py.join in *. cbn [String.concat].
  destruct lines as [|l' lines'].
  - apply split_without_separator. apply Hall. left. reflexivity.
  - unfold nl at 1.
    change (l ++ String "010"%char EmptyString ++ String.concat nl (l' :: lines'))
      with (l ++ String "010"%char (String.concat nl (l' :: lines'))).
    rewrite split_app, IH.
    + rewrite split_without_separator; [reflexivity|].
      apply Hall. left. reflexivity.
    + discriminate.
    + intros x Hx. apply Hall. right. exact Hx.
Qed.

Lemma linebreak_linefeed : Py.is_linebreak "010"%char = true.
Proof. reflexivity. Qed.

Lemma splitlines_no_linefeed_upto (n : nat) :
  forall s, (String.length s <= n)%nat ->
    forall l, In l (Py.splitlines s) -> contains "010"%char l = false.
Proof.
  induction n as [|n IH]; intros s Hlen l Hin.
  - destruct s; [contradiction | cbn in Hlen; lia].
  - destruct s as [|c s]; [contradiction|].
    cbn [String.length] in Hlen. cbn [Py.splitlines] in Hin.
    destruct (Py.is_linebreak c) eqn:Ec.
    + destruct Hin as [<-|Hin]; [reflexivity|].
      destruct s as [|d s']; [contradiction|].
      cbn [String.length] in Hlen.
      destruct (Ascii.eqb c "013"%char && Ascii.eqb d "010"%char).
      * apply (IH s'); [lia | exact Hin].
      * apply (IH (String d s')); [cbn [String.length]; lia | exact Hin].
    + assert (Hc : Ascii.eqb c "010"%char = false).
      { destruct (Ascii.eqb c "010"%char) eqn:E; [|reflexivity].
        apply Ascii.eqb_eq in E. subst c. discriminate Ec. }
      pose proof (IH s ltac:(lia)) as Hs.
      destruct (Py.splitlines s) as [|w ws].
      * destruct Hin as [<-|[]]. cbn [contains]. rewrite Hc. reflexivity.
      * destruct Hin as [<-|Hin].
        -- cbn [contains]. rewrite Hc. apply Hs. left. reflexivity.
        -- apply Hs. right. exact Hin.
Qed.

Lemma splitlines_no_linefeed (s l : string) :
  In l (Py.splitlines s) -> contains "010"%char l = false.
Proof. exact (splitlines_no_linefeed_upto (String.length s) s (le_n _) l). Qed.

Lemma skipn_In {A : Type} (n : nat) (xs : list A) (x : A) :
  In x (skipn n xs) -> In x xs.
Proof.
  revert xs. induction n as [|n IH]; intros [|y ys] H; cbn [skipn] in H;
    try assumption. right. apply IH. exact H.
Qed.

(** X9: splitting the text [get_git_diff] returns at line feeds gives back
    exactly the lines of the git output from the first line that starts
    with '@@' on: these are the lines [extract_line_from_diff] scans in
    such a text. *)
Theorem returned_diff_splits_into_kept_lines
    (stdout h : string) (rest : list string) :
  skipn (first_hunk_index (Py.splitlines stdout)) (Py.splitlines stdout)
  = h :: rest ->
  Py.split "010"%char (diff_from_first_hunk stdout) = h :: rest
  /\ forall t ty,
       extract_line_from_diff (diff_from_first_hunk stdout) t ty
       = scan t ty (h :: rest) None None.
Proof.
  intros H.
  assert (E : Py.split "010"%char (diff_from_first_hunk stdout) = h :: rest).
  { unfold diff_from_first_hunk. cbn zeta. rewrite H.
    apply split_join; [discriminate|].
    intros l Hl. apply (splitlines_no_linefeed stdout).
    apply (skipn_In (first_hunk_index (Py.splitlines stdout))).
    rewrite H. exact Hl. }
  split; [exact E|]. intros t ty. unfold extract_line_from_diff.
  rewrite E. reflexivity.
Qed.

Lemma returned_diff_splits_into_kept_lines_witness :
  Py.split "010"%char
    (diff_from_first_hunk ("index 1..2" ++ nl ++ "@@ -1,1 +1,1 @@"
                           ++ String "013"%char nl ++ "+x" ++ nl))
  = ["@@ -1,1 +1,1 @@"; "+x"].
Proof.
  apply (returned_diff_splits_into_kept_lines
           ("index 1..2" ++ nl ++ "@@ -1,1 +1,1 @@"
            ++ String "013"%char nl ++ "+x" ++ nl)
           "@@ -1,1 +1,1 @@" ["+x"]).
  reflexivity.
Defined.

Lemma startswith_nonempty (s : string) :
  Py.startswith s "@@" = true -> Py.truthy (Some s) = true.
Proof. destruct s; [discriminate | reflexivity]. Qed.

(** X10: the diff text the pipeline stores in a record, when there is one,
    starts with '@@' and is what [get_git_diff] cut out of the git output.
    When [get_git_diff] returns, no diff text is stored exactly when the
    git command failed or no line of its output starts with '@@'. *)
Theorem stored_diff_starts_with_header
    (git_diff_run : string -> string -> string -> completed) (p : Position) :
  is_ok (get_git_diff git_diff_run (base_sha p) (head_sha p) (new_path p))
  = true ->
  match stored_diff git_diff_run p with
  | Some d =>
      Py.startswith d "@@" = true
      /\ exists stdout,
           git_diff_run (base_sha p) (head_sha p) (new_path p) = Completed stdout
           /\ d = diff_from_first_hunk stdout
  | None =>
      git_diff_run (base_sha p) (head_sha p) (new_path p) = CalledProcessError
      \/ exists stdout,
           git_diff_run (base_sha p) (head_sha p) (new_path p) = Completed stdout
           /\ Forall (fun l => Py.startswith l "@@" = false)
                (Py.splitlines stdout)
  end.
Proof.
  unfold stored_diff, get_git_diff. cbn zeta.
  destruct (git_diff_run (base_sha p) (head_sha p) (new_path p))
    as [stdout| |e]; intros Hok; [|left; reflexivity|discriminate Hok].
  destruct (skip_to_first_hunk (Py.splitlines stdout))
    as (pre & rest & Heq & Hpre & Hskip & Hrest).
  unfold diff_from_first_hunk. cbn zeta. rewrite Hskip.
  destruct rest as [|h tl].
  - cbn. right. exists stdout. split; [reflexivity|].
    rewrite Heq, app_nil_r. exact Hpre.
  - pose proof (join_starts_with_first nl h "@@" tl Hrest) as Hs.
    rewrite (startswith_nonempty _ Hs). split; [exact Hs|].
    exists stdout. split; [reflexivity|].
    unfold diff_from_first_hunk. cbn zeta. rewrite Hskip. reflexivity.
Qed.

Lemma stored_diff_starts_with_header_witness :
  stored_diff git_gives_hunk_10 anchor_50 = Some hunk_10
  /\ Py.startswith hunk_10 "@@" = true.
Proof.
  pose proof (stored_diff_starts_with_header git_gives_hunk_10 anchor_50
                eq_refl) as H.
  split; [reflexivity | exact (proj1 H)].
Defined.

(** * Further properties of the conversation pipeline *)

Lemma is_author_spec (u : option string) (n : Note) :
  is_author u n = true <-> u = Some (author_username n).
Proof.
  unfold is_author. destruct u as [u|]; [|split; discriminate].
  rewrite String.eqb_eq. split; [intros ->; reflexivity | congruence].
Qed.

Lemma kept_spec (r : option string) (n : Note) :
  kept r n = true <->
  system n = false /\ (Py.truthy r = true -> r = Some (author_username n)).
Proof.
  unfold kept. rewrite andb_true_iff, orb_true_iff, negb_true_iff, negb_true_iff.
  rewrite is_author_spec. split.
  - intros [[H|H] Hs]; (split; [exact Hs|]); [congruence | intros _; exact H].
  - intros [Hs H]. split; [|exact Hs].
    destruct (Py.truthy r); [right; apply H; reflexivity | left; reflexivity].
Qed.

Lemma not_all_by (x : option string) (notes : list Note) :
  forallb (is_author x) notes = false <->
  exists m, In m notes /\ x <> Some (author_username m).
Proof.
  induction notes as [|a notes IH]; cbn [forallb].
  - split; [discriminate | intros (m & [] & _)].
  - rewrite andb_false_iff, IH. split.
    + intros [H|(m & Hm & Hx)].
      * exists a. split; [left; reflexivity|].
        intros E. apply is_author_spec in E. congruence.
      * exists m. split; [right; exact Hm | exact Hx].
    + intros (m & [<-|Hm] & Hx).
      * left. destruct (is_author x a) eqn:E; [|reflexivity].
        apply is_author_spec in E. contradiction.
      * right. exists m. split; assumption.
Qed.

(** X11: a note is in the conversation [filter_and_sort_notes] returns
    exactly when it is a note of the discussion that is no system note and,
    if a reviewer name is given and not empty, written by that reviewer,
    and some note of the discussion is by someone other than the reviewed
    user.  So a discussion written by the reviewed user alone gives an
    empty conversation whatever the reviewer filter is. *)
Theorem conversation_holds_the_kept_notes
    (reviewer_username reviewed_username : option string)
    (notes : list Note) (n : Note) :
  In n (filter_and_sort_notes reviewer_username reviewed_username notes) <->
  In n notes
  /\ system n = false
  /\ (Py.truthy reviewer_username = true ->
      reviewer_username = Some (author_username n))
  /\ exists m, In m notes /\ reviewed_username <> Some (author_username m).
Proof.
  unfold filter_and_sort_notes.
  destruct (forallb (is_author reviewed_username) notes) eqn:Eall.
  - split; [intros [] | intros (_ & _ & _ & H)].
    apply not_all_by in H. congruence.
  - destruct (sorted_spec created_at (filter (kept reviewer_username) notes))
      as (_ & _ & Hp).
    split.
    + intros H. apply (Permutation_in _ (Permutation_sym Hp)) in H.
      apply filter_In in H. destruct H as [Hin Hk].
      apply kept_spec in Hk. destruct Hk as [Hs Hr].
      split; [exact Hin|]. split; [exact Hs|]. split; [exact Hr|].
      apply not_all_by. exact Eall.
    + intros (Hin & Hs & Hr & _). apply (Permutation_in _ Hp).
      apply filter_In. split; [exact Hin|].
      apply kept_spec. split; assumption.
Qed.

Lemma sorted_nil_iff {A : Type} (key : A -> string) (xs : list A) :
  Py.sorted key xs = [] <-> xs = [].
Proof.
  destruct (sorted_spec key xs) as (_ & _ & Hp). split.
  - intros E. rewrite E in Hp. apply Permutation_sym, Permutation_nil in Hp.
    exact Hp.
  - intros ->. reflexivity.
Qed.

Lemma filter_nil_iff {A : Type} (f : A -> bool) (l : list A) :
  filter f l = [] <-> forall z, In z l -> f z = false.
Proof.
  split; [|apply filter_none].
  intros E z Hz. destruct (f z) eqn:Ef; [|reflexivity].
  assert (H : In z (filter f l)) by (apply filter_In; split; assumption).
  rewrite E in H. contradiction.
Qed.

Lemma conversation_empty (r x : option string) (notes : list Note) :
  filter_and_sort_notes r x notes = [] <->
  (forall m, In m notes -> x = Some (author_username m))
  \/ (forall n, In n notes -> kept r n = false).
Proof.
  unfold filter_and_sort_notes.
  destruct (forallb (is_author x) notes) eqn:Eall.
  - split; [intros _; left | reflexivity].
    intros m Hm. apply is_author_spec.
    rewrite forallb_forall in Eall. apply Eall. exact Hm.
  - rewrite sorted_nil_iff, filter_nil_iff. split; [intros H; right; exact H|].
    intros [H|H]; [|exact H].
    apply not_all_by in Eall. destruct Eall as (m & Hm & Hx).
    elim Hx. apply H. exact Hm.
Qed.

Section PipelineExtras.
Variable git_diff_run : string -> string -> string -> completed.
Variable convert_time_format : string -> result string.
Variable set_order : list string -> list string.
Variable project_web_url : string.
Variables reviewer_username reviewed_username : option string.

Lemma get_notes_shape (conversation : list Note) :
  forall out_notes,
    get_notes convert_time_format conversation = Ok out_notes ->
    List.length out_notes = List.length conversation
    /\ map reviewer out_notes = map author_username conversation
    /\ map out_body out_notes = map body conversation.
Proof.
  induction conversation as [|note rest IH]; intros out_notes H;
    cbn [get_notes] in H.
  - injection H as <-. repeat split.
  - destruct (convert_time_format (created_at note)) as [t|e];
      cbn [bind] in H; [|discriminate].
    destruct (get_notes convert_time_format rest) as [others|e];
      cbn [bind] in H; [|discriminate].
    injection H as <-. destruct (IH others eq_refl) as (Hl & Hr & Hb).
    cbn [List.length map reviewer out_body]. rewrite Hl, Hr, Hb.
    repeat split.
Qed.

Lemma discussion_record_none (merge_request_iid : Z) (discussion : list Note) :
  discussion_record git_diff_run convert_time_format set_order project_web_url
    reviewer_username reviewed_username merge_request_iid discussion = Ok None
  <-> filter_and_sort_notes reviewer_username reviewed_username discussion = [].
Proof.
  unfold discussion_record. cbn zeta.
  destruct (filter_and_sort_notes reviewer_username reviewed_username discussion)
    as [|first rest].
  - split; reflexivity.
  - destruct (conversation_record git_diff_run convert_time_format set_order
                project_web_url merge_request_iid (first :: rest));
      cbn [bind]; split; discriminate.
Qed.

(** X12: a discussion gives no record, and raises nothing, exactly when
    every note of it is by the reviewed user or no note of it passes the
    reviewer and system-note filter; the empty discussion is one of
    these.  Neither the git command nor the time conversion is reached. *)
Theorem discussion_without_kept_notes_gives_no_record
    (merge_request_iid : Z) (discussion : list Note) :
  discussion_record git_diff_run convert_time_format set_order project_web_url
    reviewer_username reviewed_username merge_request_iid discussion = Ok None
  <-> (forall m, In m discussion -> reviewed_username = Some (author_username m))
      \/ (forall n, In n discussion ->
            system n = true
            \/ (Py.truthy reviewer_username = true
                /\ reviewer_username <> Some (author_username n))).
Proof.
  rewrite discussion_record_none, conversation_empty.
  split; (intros [H|H]; [left; exact H | right]); intros n Hn;
    specialize (H n Hn).
  - destruct (system n) eqn:Es; [left; reflexivity | right].
    destruct (Py.truthy reviewer_username) eqn:Et.
    + split; [reflexivity|]. intros E.
      assert (K : kept reviewer_username n = true)
        by (apply kept_spec; split; [exact Es | intros _; exact E]).
      congruence.
    + assert (K : kept reviewer_username n = true)
        by (apply kept_spec; split; [exact Es | intros Ht; congruence]).
      congruence.
  - destruct (kept reviewer_username n) eqn:K; [|reflexivity].
    apply kept_spec in K. destruct K as [Ks Kr].
    destruct H as [H|[Ht Hne]]; [congruence|].
    elim Hne. apply Kr. exact Ht.
Qed.

(** X13: in every record the pipeline builds, the note count is the number
    of notes stored, which is at least one; the stored notes carry the
    authors and bodies of the conversation in its order; the date of the
    record is the converted date of its first stored note; and the record
    has no summary yet. *)
Theorem record_counts_its_notes
    (merge_request_iid : Z) (discussion : list Note) (data : ConversationData) :
  discussion_record git_diff_run convert_time_format set_order project_web_url
    reviewer_username reviewed_username merge_request_iid discussion
  = Ok (Some data) ->
  let conversation :=
    filter_and_sort_notes reviewer_username reviewed_username discussion in
  note_count data = Z.of_nat (List.length (notes data))
  /\ 1 <= note_count data
  /\ map reviewer (notes data) = map author_username conversation
  /\ map out_body (notes data) = map body conversation
  /\ (exists o others,
        notes data = o :: others /\ out_created_at o = first_note_date data)
  /\ analyze data = None.
Proof.
  unfold discussion_record. cbn zeta.
  destruct (filter_and_sort_notes reviewer_username reviewed_username discussion)
    as [|first rest]; [discriminate|].
  unfold conversation_record, collect_conversation_data.
  cbn [Py.index nth_error bind get_notes].
  destruct (convert_time_format (created_at first)) as [t|e];
    cbn [bind]; [|discriminate].
  destruct (get_notes convert_time_format rest) as [others|e] eqn:En;
    cbn [bind]; [|discriminate].
  destruct (get_notes_shape rest others En) as (Hl & Hr & Hb).
  assert (Hshape :
    forall d, 
      notes d = {| out_created_at := t; reviewer := author_username first;
                   out_body := body first |} :: others ->
      note_count d = Z.of_nat (List.length (first :: rest)) ->
      first_note_date d = t -> analyze d = None ->
      note_count d = Z.of_nat (List.length (notes d))
      /\ 1 <= note_count d
      /\ map reviewer (notes d) = map author_username (first :: rest)
      /\ map out_body (notes d) = map body (first :: rest)
      /\ (exists o others',
            notes d = o :: others' /\ out_created_at o = first_note_date d)
      /\ analyze d = None).
  { intros d Hn Hc Hd Ha. rewrite Hn, Hc, Hd.
    cbn [List.length map reviewer out_body out_created_at].
    rewrite Hl, Hr, Hb. repeat split; [lia | | exact Ha].
    eexists _, _. split; reflexivity. }
  destruct (position first) as [p|].
  - destruct (get_git_diff git_diff_run (base_sha p) (head_sha p) (new_path p))
      as [git_diff|e]; cbn [bind]; [|discriminate].
    destruct (get_line_and_type_from_position p start) as [s|e];
      cbn [bind]; [|discriminate].
    destruct (get_line_and_type_from_position p end_) as [e'|e];
      cbn [bind]; [|discriminate].
    intros H. injection H as <-. apply Hshape; reflexivity.
  - intros H. injection H as <-. apply Hshape; reflexivity.
Qed.

(** X14: when the first note of the conversation carries a position whose
    line range is null, the discussion raises [TypeError], whatever
    [get_git_diff] returns, a text or [None], although every creation time
    converts. *)
Theorem anchor_without_line_range_raises
    (merge_request_iid : Z) (discussion : list Note)
    (first : Note) (rest : list Note) (p : Position) :
  filter_and_sort_notes reviewer_username reviewed_username discussion
  = first :: rest ->
  position first = Some p ->
  line_range p = None ->
  is_ok (get_git_diff git_diff_run (base_sha p) (head_sha p) (new_path p))
  = true ->
  times_convert convert_time_format (first :: rest) ->
  discussion_record git_diff_run convert_time_format set_order project_web_url
    reviewer_username reviewed_username merge_request_iid discussion
  = Raise TypeError.
Proof.
  intros Hc Hp Hr Hok Ht.
  rewrite (discussion_record_of_conversation convert_time_format set_order
             project_web_url reviewer_username reviewed_username
             merge_request_iid git_diff_run discussion first rest Hc).
  pose proof (conversation_record_anchor git_diff_run convert_time_format
                set_order project_web_url merge_request_iid first rest Ht) as H.
  rewrite Hp in H.
  destruct (get_git_diff git_diff_run (base_sha p) (head_sha p) (new_path p));
    [|discriminate Hok].
  rewrite Hr in H. rewrite H. reflexivity.
Qed.

End PipelineExtras.

Lemma record_counts_its_notes_witness :
  exists data,
    discussion_record git_gives_hunk_10 keep_time listed_order example_url
      None (Some "C") 12 [reply_B; anchored_A] = Ok (Some data)
    /\ note_count data = 2
    /\ map reviewer (notes data) = ["A"; "B"].
Proof.
  eexists. split; [reflexivity|].
  destruct (record_counts_its_notes git_gives_hunk_10 keep_time listed_order
              example_url None (Some "C") 12 [reply_B; anchored_A] _ eq_refl)
    as (Hc & _ & Hr & _).
  split; [exact Hc | exact Hr].
Defined.

Lemma anchor_without_line_range_raises_witness :
  discussion_record git_gives_hunk_10 keep_time listed_order example_url
    None (Some "C") 12 [reply_B; unranged_A] = Raise TypeError.
Proof.
  exact (anchor_without_line_range_raises git_gives_hunk_10 keep_time
           listed_order example_url None (Some "C") 12 [reply_B; unranged_A]
           unranged_A [reply_B] anchor_no_range eq_refl eq_refl eq_refl
           eq_refl (fun note _ => ex_intro _ (created_at note) eq_refl)).
Defined.

(** ** The loops over discussions, merge requests and pages *)

Section LoopExtras.
Variable git_diff_run : string -> string -> string -> completed.
Variable convert_time_format : string -> result string.
Variable set_order : list string -> list string.
Variable project_web_url : string.
Variables reviewer_username reviewed_username : option string.

Let record := discussion_record git_diff_run convert_time_format set_order
                project_web_url reviewer_username reviewed_username.
Let discussions_loop := for_discussions git_diff_run convert_time_format
                          set_order project_web_url reviewer_username
                          reviewed_username.
Let merge_requests_loop := for_merge_requests git_diff_run convert_time_format
                             set_order project_web_url reviewer_username
                             reviewed_username.
Let pages_loop := while_pages git_diff_run convert_time_format set_order
                    project_web_url reviewer_username reviewed_username.
Let extract := extract_gitlab_conversations git_diff_run convert_time_format
                 set_order project_web_url reviewer_username reviewed_username.

Lemma for_discussions_acc (merge_request_iid : Z) (ds : list (list Note)) :
  forall acc,
    discussions_loop merge_request_iid ds acc
    = (r <- discussions_loop merge_request_iid ds [] ;; Ok (acc ++ r)%list).
Proof.
  unfold discussions_loop.
  induction ds as [|d rest IH]; intros acc; cbn [for_discussions bind].
  - now rewrite app_nil_r.
  - destruct (discussion_record git_diff_run convert_time_format set_order
                project_web_url reviewer_username reviewed_username
                merge_request_iid d) as [r|e]; cbn [bind]; [|reflexivity].
    rewrite (IH (match r with
                 | Some data => (acc ++ [data])%list
                 | None => acc
                 end)).
    rewrite (IH (match r with
                 | Some data => ([] ++ [data])%list
                 | None => []
                 end)).
    destruct (for_discussions git_diff_run convert_time_format set_order
                project_web_url reviewer_username reviewed_username
                merge_request_iid rest []) as [x|e]; cbn [bind]; [|reflexivity].
    destruct r; cbn [app]; [now rewrite <- app_assoc | reflexivity].
Qed.

Lemma for_merge_requests_acc (mrs : list MergeRequest) :
  forall acc,
    merge_requests_loop mrs acc
    = (r <- merge_requests_loop mrs [] ;; Ok (acc ++ r)%list).
Proof.
  unfold merge_requests_loop.
  induction mrs as [|mr rest IH]; intros acc; cbn [for_merge_requests bind].
  - now rewrite app_nil_r.
  - destruct (user_notes_count mr =? 0); [apply IH|].
    pose proof (for_discussions_acc (iid mr) (discussions mr) acc) as Hd.
    unfold discussions_loop in Hd. rewrite Hd.
    destruct (for_discussions git_diff_run convert_time_format set_order
                project_web_url reviewer_username reviewed_username
                (iid mr) (discussions mr) []) as [x|e]; cbn [bind];
      [|reflexivity].
    rewrite (IH (acc ++ x)%list), (IH x).
    destruct (for_merge_requests git_diff_run convert_time_format set_order
                project_web_url reviewer_username reviewed_username rest [])
      as [y|e]; cbn [bind]; [now rewrite app_assoc | reflexivity].
Qed.

Lemma while_pages_acc (pages : list (list MergeRequest)) :
  forall acc,
    pages_loop pages acc = (r <- pages_loop pages [] ;; Ok (acc ++ r)%list).
Proof.
  unfold pages_loop.
  induction pages as [|page rest IH]; intros acc.
  - cbn [while_pages bind]. now rewrite app_nil_r.
  - destruct page as [|mr mrs].
    + cbn [while_pages bind]. now rewrite app_nil_r.
    + cbn [while_pages].
      pose proof (for_merge_requests_acc (mr :: mrs) acc) as Hm.
      unfold merge_requests_loop in Hm. rewrite Hm.
      destruct (for_merge_requests git_diff_run convert_time_format set_order
                  project_web_url reviewer_username reviewed_username
                  (mr :: mrs) []) as [x|e]; cbn [bind]; [|reflexivity].
      rewrite (IH (acc ++ x)%list), (IH x).
      destruct (while_pages git_diff_run convert_time_format set_order
                  project_web_url reviewer_username reviewed_username rest [])
        as [y|e]; cbn [bind]; [now rewrite app_assoc | reflexivity].
Qed.

Lemma for_discussions_raises (merge_request_iid : Z) (d : list Note) (e : exn)
    (ds : list (list Note)) :
  In d ds -> record merge_request_iid d = Raise e ->
  forall acc, exists e', discussions_loop merge_request_iid ds acc = Raise e'.
Proof.
  unfold record, discussions_loop. intros Hin Hd.
  induction ds as [|d0 rest IH]; [contradiction|]. intros acc.
  cbn [for_discussions].
  destruct (discussion_record git_diff_run convert_time_format set_order
              project_web_url reviewer_username reviewed_username
              merge_request_iid d0) as [r|e0] eqn:E0; cbn [bind].
  - destruct Hin as [->|Hin]; [congruence|]. apply (IH Hin).
  - exists e0. reflexivity.
Qed.

Lemma for_merge_requests_raises (mr : MergeRequest) (d : list Note) (e : exn)
    (mrs : list MergeRequest) :
  In mr mrs -> user_notes_count mr <> 0 -> In d (discussions mr) ->
  record (iid mr) d = Raise e ->
  forall acc, exists e', merge_requests_loop mrs acc = Raise e'.
Proof.
  unfold merge_requests_loop. intros Hin Hc Hd He.
  induction mrs as [|mr0 rest IH]; [contradiction|]. intros acc.
  cbn [for_merge_requests].
  destruct (user_notes_count mr0 =? 0) eqn:E0.
  - destruct Hin as [->|Hin]; [apply Z.eqb_eq in E0; contradiction|].
    apply (IH Hin).
  - destruct (for_discussions git_diff_run convert_time_format set_order
                project_web_url reviewer_username reviewed_username
                (iid mr0) (discussions mr0) acc) as [cd|e0] eqn:Ed; cbn [bind].
    + destruct Hin as [->|Hin]; [|apply (IH Hin)].
      destruct (for_discussions_raises (iid mr) d e (discussions mr) Hd He acc)
        as [e' He'].
      unfold discussions_loop in He'. congruence.
    + exists e0. reflexivity.
Qed.

(** X15: one discussion that raises makes the whole extraction raise: when
    a discussion of a merge request with notes, on a page that is reached,
    raises an exception, [extract_gitlab_conversations] returns no record
    at all, those collected before included. *)
Theorem failing_discussion_aborts_extraction
    (pre post : list (list MergeRequest)) (page : list MergeRequest)
    (mr : MergeRequest) (d : list Note) (e : exn) :
  Forall (fun p => p <> []) pre ->
  In mr page ->
  user_notes_count mr <> 0 ->
  In d (discussions mr) ->
  record (iid mr) d = Raise e ->
  exists e', extract (pre ++ page :: post)%list = Raise e'.
Proof.
  intros Hpre Hin Hc Hd He.
  unfold extract, extract_gitlab_conversations. generalize (@nil ConversationData).
  induction Hpre as [|p pre Hp Hpre IH]; intros acc; cbn [app].
  - destruct page as [|m ms]; [contradiction|]. cbn [while_pages].
    destruct (for_merge_requests_raises mr d e (m :: ms) Hin Hc Hd He acc)
      as [e' He'].
    unfold merge_requests_loop in He'. rewrite He'. exists e'. reflexivity.
  - destruct p as [|m ms]; [contradiction|]. cbn [while_pages].
    destruct (for_merge_requests git_diff_run convert_time_format set_order
                project_web_url reviewer_username reviewed_username
                (m :: ms) acc) as [cd|e0]; cbn [bind].
    + apply IH.
    + exists e0. reflexivity.
Qed.

(** X16: the extraction stops at the first empty page: whatever pages
    would follow an empty one, the result is the same as without them. *)
Theorem pages_after_an_empty_page_are_not_read
    (pages more : list (list MergeRequest)) :
  extract (pages ++ [] :: more)%list = extract pages.
Proof.
  unfold extract, extract_gitlab_conversations. generalize (@nil ConversationData).
  induction pages as [|p pages IH]; intros acc; cbn [app].
  - reflexivity.
  - destruct p as [|m ms]; [reflexivity|]. cbn [while_pages].
    destruct (for_merge_requests git_diff_run convert_time_format set_order
                project_web_url reviewer_username reviewed_username
                (m :: ms) acc) as [cd|e0]; cbn [bind]; [apply IH | reflexivity].
Qed.

(** X17: the records of a run over several pages are the records of the
    first pages followed by the records of the later ones, each part
    being what a run over these pages alone gives; an exception in either
    part is the outcome of the whole. *)
Theorem extraction_concatenates_over_pages
    (pages later : list (list MergeRequest)) :
  Forall (fun p => p <> []) pages ->
  extract (pages ++ later)%list
  = (r1 <- extract pages ;; r2 <- extract later ;; Ok (r1 ++ r2)%list).
Proof.
  intros Hne. unfold extract, extract_gitlab_conversations.
  assert (H : forall acc,
             pages_loop (pages ++ later)%list acc
             = (r1 <- pages_loop pages acc ;; pages_loop later r1)).
  { unfold pages_loop.
    induction Hne as [|p pages Hp Hne IH]; intros acc; cbn [app].
    - reflexivity.
    - destruct p as [|m ms]; [contradiction|]. cbn [while_pages].
      destruct (for_merge_requests git_diff_run convert_time_format set_order
                  project_web_url reviewer_username reviewed_username
                  (m :: ms) acc) as [cd|e0]; cbn [bind]; [apply IH | reflexivity]. }
  unfold pages_loop in H. rewrite H.
  destruct (while_pages git_diff_run convert_time_format set_order
              project_web_url reviewer_username reviewed_username pages [])
    as [r1|e1]; cbn [bind]; [|reflexivity].
  pose proof (while_pages_acc later r1) as Ha. unfold pages_loop in Ha.
  exact Ha.
Qed.

End LoopExtras.

Lemma failing_discussion_aborts_extraction_witness :
  exists e',
    extract_gitlab_conversations git_gives_hunk_10 keep_time listed_order
      example_url None (Some "C") [[mr_12]; [mr_13]] = Raise e'.
Proof.
  apply (failing_discussion_aborts_extraction git_gives_hunk_10 keep_time
           listed_order example_url None (Some "C") [[mr_12]] [] [mr_13]
           mr_13 [reply_B; unranged_A] TypeError).
  - repeat constructor. discriminate.
  - left. reflexivity.
  - discriminate.
  - left. reflexivity.
  - reflexivity.
Defined.

Lemma extraction_concatenates_over_pages_witness :
  exists r,
    extract_gitlab_conversations git_gives_hunk_10 keep_time listed_order
      example_url None (Some "C") [[mr_12]; [mr_12]] = Ok (r ++ r)%list
    /\ List.length r = 1%nat.
Proof.
  pose proof (extraction_concatenates_over_pages git_gives_hunk_10 keep_time
                listed_order example_url None (Some "C") [[mr_12]] [[mr_12]]
                ltac:(repeat constructor; discriminate)) as H.
  eexists. split; [exact H | reflexivity].
Defined.

(** * Further properties of the analysis stage *)

Section AnalyzeExtras.
Variable analyze_review_discussion :
  string -> option string -> DiscussionRange -> result string.
Variable str_exn : exn -> string.

Let summary (data : ConversationData) : result string :=
  analyze_review_discussion (conversation_text data) (diff_text data)
    (discussion_range data).
Let first_loop := analyze_loop analyze_review_discussion str_exn.
Let run_of := print_analyze analyze_review_discussion str_exn.

(** A record without a summary after the first loop is one that had none
    and whose summary failed. *)
Lemma analyze_loop_leaves_none (conversation_data : list ConversationData)
    (d : ConversationData) :
  In d (fst (first_loop conversation_data)) -> analyze d = None ->
  In d conversation_data /\ exists e, summary d = Raise e.
Proof.
  unfold first_loop, summary. intros Hin Hnone.
  induction conversation_data as [|data rest IH]; [contradiction|].
  cbn [analyze_loop] in Hin.
  destruct (analyze_review_discussion (conversation_text data) (diff_text data)
              (discussion_range data)) as [answer|e] eqn:E;
    cbn [fst In] in Hin; destruct Hin as [<-|Hin].
  - discriminate Hnone.
  - destruct (IH Hin) as [H1 H2]. split; [right; exact H1 | exact H2].
  - split; [left; reflexivity | exists e; exact E].
  - destruct (IH Hin) as [H1 H2]. split; [right; exact H1 | exact H2].
Qed.

Lemma print_rows_outcome (conversation_data : list ConversationData) :
  (snd (print_rows conversation_data) = None
   /\ (forall d, In d conversation_data -> analyze d <> None)
   /\ List.length (fst (print_rows conversation_data))
      = List.length conversation_data)
  \/ (snd (print_rows conversation_data) = Some (KeyError "analyze")
      /\ exists d, In d conversation_data /\ analyze d = None).
Proof.
  induction conversation_data as [|data rest IH].
  - left. repeat split. intros d [].
  - cbn [print_rows]. unfold table_row, get_analyze.
    destruct (analyze data) as [a|] eqn:Ea; cbn [bind].
    + cbn [fst snd List.length]. destruct IH as [(H1 & H2 & H3)|(H1 & d & Hd & Hn)].
      * left. split; [exact H1|]. split; [|now rewrite H3].
        intros d [<-|Hd]; [congruence | apply H2; exact Hd].
      * right. split; [exact H1|]. exists d. split; [right; exact Hd | exact Hn].
    + right. split; [reflexivity|]. exists data.
      split; [left; reflexivity | exact Ea].
Qed.

Lemma csv_data_rows_ok (conversation_data : list ConversationData) :
  (forall d, In d conversation_data -> analyze d <> None) ->
  exists rows,
    csv_data_rows conversation_data = Ok rows
    /\ List.length rows = List.length conversation_data
    /\ Forall (fun row => List.length row = 5%nat) rows.
Proof.
  induction conversation_data as [|data rest IH]; intros H.
  - exists []. repeat split. constructor.
  - cbn [csv_data_rows]. unfold csv_row, get_analyze.
    destruct (analyze data) as [a|] eqn:Ea;
      [|elim (H data (or_introl eq_refl)); exact Ea].
    cbn [bind].
    destruct IH as (rows & Hr & Hl & Hf);
      [intros d Hd; apply H; right; exact Hd|].
    rewrite Hr. cbn [bind]. eexists. split; [reflexivity|].
    cbn [List.length]. split; [now rewrite Hl|].
    constructor; [reflexivity | exact Hf].
Qed.

Lemma analyze_loop_prints_errors (conversation_data : list ConversationData) :
  List.length (snd (first_loop conversation_data))
  = List.length (filter (fun d => negb (is_ok (summary d))) conversation_data).
Proof.
  unfold first_loop, summary.
  induction conversation_data as [|data rest IH]; [reflexivity|].
  cbn [analyze_loop filter].
  destruct (analyze_review_discussion (conversation_text data) (diff_text data)
              (discussion_range data)); cbn [snd is_ok negb List.length];
    now rewrite IH.
Qed.

(** X18: [print_analyze] ends with an exception exactly when the summary
    failed for a record that carried none; the exception is then
    [KeyError] on 'analyze', raised by the table loop, and no CSV row is
    written.  The loops of the function raise nothing else: the failure of
    a summary itself is caught. *)
Theorem run_raises_only_for_a_missing_summary
    (conversation_data : list ConversationData)
    (result_csv_file : option string) :
  let run := run_of conversation_data result_csv_file in
  (raised run = None \/ raised run = Some (KeyError "analyze"))
  /\ (raised run = Some (KeyError "analyze")
      <-> exists data e,
            In data conversation_data /\ analyze data = None
            /\ summary data = Raise e)
  /\ (raised run <> None -> csv_rows run = None).
Proof.
  cbn zeta. unfold run_of, print_analyze.
  destruct (print_rows_outcome
              (fst (analyze_loop analyze_review_discussion str_exn
                      conversation_data)))
    as [(H1 & H2 & H3)|(H1 & d & Hd & Hn)]; rewrite H1.
  - destruct (csv_data_rows_ok _ H2) as (rows & Hr & _).
    assert (Hno : ~ exists data e,
               In data conversation_data /\ analyze data = None
               /\ summary data = Raise e).
    { intros (data & e & Hin & Hnone & He).
      apply (H2 data); [|exact Hnone].
      apply (analyze_loop_keeps_failed analyze_review_discussion str_exn
               data e conversation_data Hin He). }
    unfold print_to_csv. rewrite Hr. cbn [bind].
    destruct (Py.truthy result_csv_file); cbn [raised csv_rows];
      (split; [left; reflexivity|]);
      (split; [split; [discriminate | intros H; elim (Hno H)]|]);
      intros H; elim H; reflexivity.
  - cbn [raised csv_rows]. split; [right; reflexivity|].
    split; [|reflexivity]. split; [|reflexivity]. intros _.
    destruct (analyze_loop_leaves_none conversation_data d Hd Hn) as [Hin [e He]].
    exists d, e. repeat split; assumption.
Qed.

(** X19: a run of [print_analyze] that ends without an exception leaves
    every record with a summary, prints one line per failed summary, then
    the table header, then one row per record, and, when a CSV file name
    is given, writes the header row and one row of five fields per record;
    without a file name it writes nothing. *)
Theorem completed_run_lists_every_record
    (conversation_data : list ConversationData)
    (result_csv_file : option string) :
  let run := run_of conversation_data result_csv_file in
  raised run = None ->
  List.length (data_after run) = List.length conversation_data
  /\ (forall d, In d (data_after run) -> analyze d <> None)
  /\ (exists errors rows,
        printed run = (errors ++ table_header :: rows)%list
        /\ List.length errors
           = List.length (filter (fun d => negb (is_ok (summary d)))
                            conversation_data)
        /\ List.length rows = List.length conversation_data)
  /\ (if Py.truthy result_csv_file
      then exists rows,
             csv_rows run
             = Some (["MR IID"; "First Note Date"; "Note Count"; "Analyze";
                      "Reviewers"] :: rows)
             /\ List.length rows = List.length conversation_data
             /\ Forall (fun row => List.length row = 5%nat) rows
      else csv_rows run = None).
Proof.
  cbn zeta. unfold run_of, print_analyze.
  pose proof (analyze_loop_length analyze_review_discussion str_exn
                conversation_data) as Hlen.
  pose proof (analyze_loop_prints_errors conversation_data) as Herr.
  unfold first_loop in Herr.
  destruct (print_rows_outcome
              (fst (analyze_loop analyze_review_discussion str_exn
                      conversation_data)))
    as [(H1 & H2 & H3)|(H1 & _)]; rewrite H1.
  - destruct (csv_data_rows_ok _ H2) as (rows & Hr & Hl & Hf).
    unfold print_to_csv. rewrite Hr. cbn [bind].
    destruct (Py.truthy result_csv_file);
      cbn [raised csv_rows data_after printed]; intros _;
      (split; [exact Hlen|]); (split; [exact H2|]);
      (split; [eexists _, _; split; [reflexivity|];
               split; [exact Herr | now rewrite H3]|]).
    + exists rows. split; [reflexivity|]. split; [now rewrite Hl | exact Hf].
    + reflexivity.
  - cbn [raised]. discriminate.
Qed.

End AnalyzeExtras.

Lemma completed_run_lists_every_record_witness :
  let run := print_analyze summary_needs_diff exn_text
               [record_with_diff; record_with_diff] (Some "result.csv") in
  raised run = None
  /\ List.length (data_after run) = 2%nat
  /\ forall d, In d (data_after run) -> analyze d <> None.
Proof.
  cbn zeta. split; [reflexivity|].
  destruct (completed_run_lists_every_record summary_needs_diff exn_text
              [record_with_diff; record_with_diff] (Some "result.csv") eq_refl)
    as (Hl & Hs & _).
  split; [exact Hl | exact Hs].
Defined.

(** * Invariants of the extracted records *)

Lemma stored_diff_header
    (git_diff_run : string -> string -> string -> completed)
    (p : Position) (d : string) :
  stored_diff git_diff_run p = Some d -> Py.startswith d "@@" = true.
Proof.
  unfold stored_diff, get_git_diff. cbn zeta.
  destruct (git_diff_run (base_sha p) (head_sha p) (new_path p))
    as [stdout| |e]; [|discriminate|discriminate].
  destruct (skip_to_first_hunk (Py.splitlines stdout))
    as (pre & rest & Heq & Hpre & Hskip & Hrest).
  unfold diff_from_first_hunk. cbn zeta. rewrite Hskip.
  destruct rest as [|h tl]; [discriminate|].
  pose proof (join_starts_with_first nl h "@@" tl Hrest) as Hs.
  rewrite (startswith_nonempty _ Hs). intros H. injection H as <-. exact Hs.
Qed.

Section ExtractInvariant.
Variable git_diff_run : string -> string -> string -> completed.
Variable convert_time_format : string -> result string.
Variable set_order : list string -> list string.
Variable project_web_url : string.
Variables reviewer_username reviewed_username : option string.

Lemma discussion_record_fresh (merge_request_iid : Z) (discussion : list Note)
    (data : ConversationData) :
  discussion_record git_diff_run convert_time_format set_order project_web_url
    reviewer_username reviewed_username merge_request_iid discussion
  = Ok (Some data) ->
  fresh_record data.
Proof.
  unfold discussion_record. cbn zeta.
  destruct (filter_and_sort_notes reviewer_username reviewed_username discussion)
    as [|first rest]; [discriminate|].
  unfold conversation_record, collect_conversation_data.
  cbn [Py.index nth_error bind get_notes].
  destruct (convert_time_format (created_at first)) as [t|e];
    cbn [bind]; [|discriminate].
  destruct (get_notes convert_time_format rest) as [others|e] eqn:En;
    cbn [bind]; [|discriminate].
  destruct (get_notes_shape convert_time_format rest others En) as (Hl & _).
  destruct (position first) as [p|].
  - pose proof (stored_diff_header git_diff_run p) as Hhead.
    unfold stored_diff in Hhead.
    destruct (get_git_diff git_diff_run (base_sha p) (head_sha p) (new_path p))
      as [git_diff|e]; cbn [bind]; [|discriminate].
    destruct (get_line_and_type_from_position p start) as [s|e];
      cbn [bind]; [|discriminate].
    destruct (get_line_and_type_from_position p end_) as [e'|e];
      cbn [bind]; [|discriminate].
    intros H. injection H as <-. unfold fresh_record.
    cbn [note_count notes analyze diff_text List.length]. rewrite Hl.
    repeat split; [lia|].
    destruct (if Py.truthy git_diff then git_diff else None) as [d|];
      [|exact I].
    exact (Hhead d eq_refl).
  - intros H. injection H as <-. unfold fresh_record.
    cbn [note_count notes analyze diff_text List.length]. rewrite Hl.
    repeat split. lia.
Qed.

Lemma for_discussions_fresh (merge_request_iid : Z) (ds : list (list Note)) :
  forall acc out,
    Forall fresh_record acc ->
    for_discussions git_diff_run convert_time_format set_order project_web_url
      reviewer_username reviewed_username merge_request_iid ds acc = Ok out ->
    Forall fresh_record out.
Proof.
  induction ds as [|d rest IH]; intros acc out Hacc; cbn [for_discussions].
  - intros H. injection H as <-. exact Hacc.
  - destruct (discussion_record git_diff_run convert_time_format set_order
                project_web_url reviewer_username reviewed_username
                merge_request_iid d) as [r|e] eqn:Er; cbn [bind]; [|discriminate].
    apply IH. destruct r as [data|]; [|exact Hacc].
    apply Forall_app. split; [exact Hacc|].
    constructor; [|constructor].
    exact (discussion_record_fresh merge_request_iid d data Er).
Qed.

Lemma for_merge_requests_fresh (mrs : list MergeRequest) :
  forall acc out,
    Forall fresh_record acc ->
    for_merge_requests git_diff_run convert_time_format set_order
      project_web_url reviewer_username reviewed_username mrs acc = Ok out ->
    Forall fresh_record out.
Proof.
  induction mrs as [|mr rest IH]; intros acc out Hacc; cbn [for_merge_requests].
  - intros H. injection H as <-. exact Hacc.
  - destruct (user_notes_count mr =? 0); [apply IH; exact Hacc|].
    destruct (for_discussions git_diff_run convert_time_format set_order
                project_web_url reviewer_username reviewed_username
                (iid mr) (discussions mr) acc) as [cd|e] eqn:Ed;
      cbn [bind]; [|discriminate].
    apply IH. exact (for_discussions_fresh (iid mr) (discussions mr) acc cd Hacc Ed).
Qed.

Lemma while_pages_fresh (pages : list (list MergeRequest)) :
  forall acc out,
    Forall fresh_record acc ->
    while_pages git_diff_run convert_time_format set_order
      project_web_url reviewer_username reviewed_username pages acc = Ok out ->
    Forall fresh_record out.
Proof.
  induction pages as [|page rest IH]; intros acc out Hacc.
  - cbn [while_pages]. intros H. injection H as <-. exact Hacc.
  - destruct page as [|mr mrs].
    + cbn [while_pages]. intros H. injection H as <-. exact Hacc.
    + cbn [while_pages].
      destruct (for_merge_requests git_diff_run convert_time_format set_order
                  project_web_url reviewer_username reviewed_username
                  (mr :: mrs) acc) as [cd|e] eqn:Em; cbn [bind]; [|discriminate].
      apply IH. exact (for_merge_requests_fresh (mr :: mrs) acc cd Hacc Em).
Qed.

(** X20: every record [extract_gitlab_conversations] returns counts the
    notes it stores, of which there is at least one, carries no summary,
    and has a diff text that is either absent or starts with a hunk
    header: never the empty string, never the lines git prints in front
    of the first hunk. *)
Theorem extracted_records_are_fresh
    (pages : list (list MergeRequest)) (conversation_data : list ConversationData) :
  extract_gitlab_conversations git_diff_run convert_time_format set_order
    project_web_url reviewer_username reviewed_username pages
  = Ok conversation_data ->
  Forall fresh_record conversation_data.
Proof.
  unfold extract_gitlab_conversations.
  apply while_pages_fresh. constructor.
Qed.

End ExtractInvariant.

Lemma extracted_records_are_fresh_witness :
  exists conversation_data,
    extract_gitlab_conversations git_gives_hunk_10 keep_time listed_order
      example_url None (Some "C") [[mr_12]] = Ok conversation_data
    /\ Forall fresh_record conversation_data
    /\ List.length conversation_data = 1%nat.
Proof.
  eexists. split; [reflexivity|].
  split; [|reflexivity].
  exact (extracted_records_are_fresh git_gives_hunk_10 keep_time listed_order
           example_url None (Some "C") [[mr_12]] _ eq_refl).
Defined.

(** * From the extraction to the analysis *)

Section ExtractThenAnalyze.
Variable git_diff_run : string -> string -> string -> completed.
Variable convert_time_format : string -> result string.
Variable set_order : list string -> list string.
Variable project_web_url : string.
Variables reviewer_username reviewed_username : option string.
Variable analyze_review_discussion :
  string -> option string -> DiscussionRange -> result string.
Variable str_exn : exn -> string.

Let summary_of (data : ConversationData) : result string :=
  analyze_review_discussion (conversation_text data) (diff_text data)
    (discussion_range data).

(** X21: on the records a run of [extract_gitlab_conversations] returns,
    [print_analyze] ends with [KeyError] on 'analyze' exactly when the
    summary of some record fails, and ends without an exception exactly
    when every record gets its summary: none of these records has a
    summary of its own to fall back on. *)
Theorem one_failed_summary_loses_the_table
    (pages : list (list MergeRequest))
    (conversation_data : list ConversationData)
    (result_csv_file : option string) :
  extract_gitlab_conversations git_diff_run convert_time_format set_order
    project_web_url reviewer_username reviewed_username pages
  = Ok conversation_data ->
  let run := print_analyze analyze_review_discussion str_exn conversation_data
               result_csv_file in
  (raised run = Some (KeyError "analyze")
   <-> exists data e, In data conversation_data /\ summary_of data = Raise e)
  /\ (raised run = None
      <-> forall data, In data conversation_data ->
            exists answer, summary_of data = Ok answer).
Proof.
  intros Hx. cbn zeta.
  assert (Hfresh : Forall fresh_record conversation_data).
  { revert Hx. unfold extract_gitlab_conversations.
    apply while_pages_fresh. constructor. }
  rewrite Forall_forall in Hfresh.
  assert (Hkeep : forall data e,
             In data conversation_data -> summary_of data = Raise e ->
             In data (fst (analyze_loop analyze_review_discussion str_exn
                             conversation_data))
             /\ analyze data = None).
  { intros data e Hin He. split.
    - exact (analyze_loop_keeps_failed analyze_review_discussion str_exn
               data e conversation_data Hin He).
    - destruct (Hfresh data Hin) as (_ & _ & Hn & _). exact Hn. }
  unfold print_analyze.
  destruct (print_rows_outcome
              (fst (analyze_loop analyze_review_discussion str_exn
                      conversation_data)))
    as [(H1 & H2 & H3)|(H1 & d & Hd & Hn)]; rewrite H1.
  - destruct (csv_data_rows_ok _ H2) as (rows & Hr & _).
    unfold print_to_csv. rewrite Hr. cbn [bind].
    assert (Hnone : forall data e,
               In data conversation_data -> summary_of data = Raise e -> False).
    { intros data e Hin He. destruct (Hkeep data e Hin He) as [Hi Ha].
      exact (H2 data Hi Ha). }
    destruct (Py.truthy result_csv_file); cbn [raised]; split; split;
      try discriminate; try reflexivity.
    + intros (data & e & Hin & He). elim (Hnone data e Hin He).
    + intros _ data Hin. destruct (summary_of data) as [a|e] eqn:E;
        [exists a; reflexivity | elim (Hnone data e Hin E)].
    + intros (data & e & Hin & He). elim (Hnone data e Hin He).
    + intros _ data Hin. destruct (summary_of data) as [a|e] eqn:E;
        [exists a; reflexivity | elim (Hnone data e Hin E)].
  - cbn [raised].
    destruct (analyze_loop_leaves_none analyze_review_discussion str_exn
                conversation_data d Hd Hn) as [Hin [e He]].
    split; split; try discriminate; try reflexivity.
    + intros _. exists d, e. split; [exact Hin | exact He].
    + intros H. destruct (H d Hin) as [a Ha].
      unfold summary_of in Ha. congruence.
Qed.

End ExtractThenAnalyze.

Lemma one_failed_summary_loses_the_table_witness :
  exists conversation_data,
    extract_gitlab_conversations git_fails keep_time listed_order
      example_url None (Some "C") [[mr_12]] = Ok conversation_data
    /\ raised (print_analyze summary_needs_diff exn_text conversation_data
                 (Some "result.csv")) = Some (KeyError "analyze").
Proof.
  eexists. split; [reflexivity|].
  apply (one_failed_summary_loses_the_table git_fails keep_time listed_order
           example_url None (Some "C") summary_needs_diff exn_text
           [[mr_12]] _ (Some "result.csv") eq_refl).
  eexists _, _. split; [left; reflexivity | reflexivity].
Defined.

(** * The prompt and the entry point *)

Section PromptFacts.
Variable git_diff_run : string -> string -> string -> completed.
Variable convert_time_format : string -> result string.
Variable set_order : list string -> list string.
Variable project_web_url : string.
Variables reviewer_username reviewed_username : option string.

(** X22: for the record of a discussion whose first note carries no
    position, the prompt [analyze_review_discussion] sends still speaks
    of a diff: it gives the lines as None (None) and the diff as the word
    None, around the conversation text. *)
Theorem unanchored_discussion_prompt_names_no_lines
    (merge_request_iid : Z) (discussion : list Note)
    (first : Note) (rest : list Note) (data : ConversationData) :
  filter_and_sort_notes reviewer_username reviewed_username discussion
  = first :: rest ->
  position first = None ->
  discussion_record git_diff_run convert_time_format set_order project_web_url
    reviewer_username reviewed_username merge_request_iid discussion
  = Ok (Some data) ->
  prompt (conversation_text data) (diff_text data) (discussion_range data)
  = "Get me the insight from this code review discussion. up to 7 words:"
    ++ nl ++ quote ++ nl ++ conversation_text data ++ nl ++ quote ++ "." ++ nl
    ++ "The discussion refers to the code change introduced by the following diff - the exact change is ranged between lines None (None) and None (None):"
    ++ nl ++ "```" ++ nl ++ "None" ++ nl ++ "```" ++ nl.
Proof.
  intros Hc Hp. unfold discussion_record. cbn zeta. rewrite Hc.
  unfold conversation_record.
  destruct (collect_conversation_data convert_time_format set_order
              (first :: rest)) as [cd|e]; cbn [bind]; [|discriminate].
  destruct (get_notes convert_time_format (first :: rest)) as [out|e];
    cbn [bind Py.index nth_error]; [|discriminate].
  rewrite Hp. intros H. injection H as <-.
  unfold prompt. cbn [diff_text discussion_range]. reflexivity.
Qed.

End PromptFacts.

Lemma unanchored_discussion_prompt_names_no_lines_witness :
  exists data,
    discussion_record git_gives_hunk_10 keep_time listed_order example_url
      None (Some "C") 12 [reply_B] = Ok (Some data)
    /\ prompt (conversation_text data) (diff_text data) (discussion_range data)
       = "Get me the insight from this code review discussion. up to 7 words:"
         ++ nl ++ quote ++ nl ++ "B: please rename" ++ nl ++ quote ++ "." ++ nl
         ++ "The discussion refers to the code change introduced by the following diff - the exact change is ranged between lines None (None) and None (None):"
         ++ nl ++ "```" ++ nl ++ "None" ++ nl ++ "```" ++ nl.
Proof.
  eexists. split; [reflexivity|].
  exact (unanchored_discussion_prompt_names_no_lines git_gives_hunk_10
           keep_time listed_order example_url None (Some "C") 12 [reply_B]
           reply_B [] _ eq_refl eq_refl eq_refl).
Defined.

Section MainFacts.
Variable git_diff_run : string -> string -> string -> completed.
Variable convert_time_format : string -> result string.
Variable set_order : list string -> list string.
Variable project_web_url : string.
Variable REVIEWED_USERNAME : string.
Variable mergerequests_list : option string -> list (list MergeRequest).
Variable json_load : string -> result (list ConversationData).
Variable completion_with_backoff : string -> result string.
Variable str_exn : exn -> string.

Let run_main := main git_diff_run convert_time_format set_order
                  project_web_url REVIEWED_USERNAME mergerequests_list
                  json_load completion_with_backoff str_exn.

(** X23: the value of the analyze option is not read as a truth value
    word: with any text that is not empty, 'False' and '0' included, [main]
    does what it does without the option, and that is to run
    [print_analyze] and print no plain table, unless the extraction has
    raised.  Only the empty text turns the analysis off: [print_analyze]
    is not run, and the plain table is printed instead, unless the
    extraction has raised. *)
Theorem analyze_option_text_runs_the_analysis (args : Args) :
  (forall text, text <> EmptyString ->
     run_main (set_analyze (Some text) args) = run_main (set_analyze None args))
  /\ (plain_table (run_main (set_analyze None args)) = []
      /\ (analysis (run_main (set_analyze None args)) = None ->
          main_raised (run_main (set_analyze None args)) <> None))
  /\ (analysis (run_main (set_analyze (Some EmptyString) args)) = None
      /\ (plain_table (run_main (set_analyze (Some EmptyString) args)) = [] ->
          main_raised (run_main (set_analyze (Some EmptyString) args))
          <> None)).
Proof.
  split; [|split].
  - intros text Hne. unfold run_main, main.
    cbn [set_analyze args_analyze args_reviewed_username
         args_reviewer_username args_gitlab_previous_output
         args_result_csv_file args_raw_json_file].
    assert (E : analyze_wanted (Some text) = true)
      by (destruct text; [contradiction | reflexivity]).
    rewrite E. reflexivity.
  - unfold run_main, main.
    cbn [set_analyze args_analyze args_reviewed_username
         args_reviewer_username args_gitlab_previous_output
         args_result_csv_file args_raw_json_file analyze_wanted].
    destruct (args_gitlab_previous_output args) as [[|c rest]|];
      try (split; [reflexivity | discriminate]);
      match goal with
      | |- context [extract_gitlab_conversations ?g ?c ?o ?u ?r ?x ?pages] =>
          destruct (extract_gitlab_conversations g c o u r x pages)
      end;
      (split; [reflexivity | discriminate]).
  - unfold run_main, main.
    cbn [set_analyze args_analyze args_reviewed_username
         args_reviewer_username args_gitlab_previous_output
         args_result_csv_file args_raw_json_file analyze_wanted Py.truthy].
    destruct (args_gitlab_previous_output args) as [[|c rest]|];
      try (split; [reflexivity | discriminate]);
      match goal with
      | |- context [extract_gitlab_conversations ?g ?c ?o ?u ?r ?x ?pages] =>
          destruct (extract_gitlab_conversations g c o u r x pages)
      end;
      (split; [reflexivity | discriminate]).
Qed.

(** X24: when the file of a previous output cannot be loaded, [main]
    prints the loading error and carries on with no record: nothing is
    extracted or saved, no exception ends the run, and the table printed
    is the header alone, as is the CSV file when the analysis runs and a
    file name is given. *)
Theorem unreadable_previous_output_gives_empty_table
    (args : Args) (file_path : string) (e : exn) :
  args_gitlab_previous_output args = Some file_path ->
  file_path <> EmptyString ->
  json_load file_path = Raise e ->
  let run := run_main args in
  load_error run = Some ("Error loading JSON file: " ++ str_exn e)
  /\ raw_json run = None
  /\ main_raised run = None
  /\ (if analyze_wanted (args_analyze args)
      then exists r,
             analysis run = Some r /\ data_after r = []
             /\ printed r = [table_header]
             /\ csv_rows r
                = (if Py.truthy (args_result_csv_file args)
                   then Some [["MR IID"; "First Note Date"; "Note Count";
                               "Analyze"; "Reviewers"]]
                   else None)
      else analysis run = None /\ plain_table run = [plain_header]).
Proof.
  intros Hp Hne Hl. cbn zeta. unfold run_main, main. rewrite Hp.
  destruct file_path as [|c rest]; [contradiction|].
  unfold load_json_to_dict. rewrite Hl. cbn [fst snd].
  destruct (analyze_wanted (args_analyze args)).
  - cbn [load_error raw_json main_raised analysis].
    unfold print_analyze. cbn [analyze_loop print_rows fst snd app].
    destruct (Py.truthy (args_result_csv_file args));
      cbn [raised]; repeat split; eexists; repeat split.
  - cbn [load_error raw_json main_raised analysis plain_table map].
    repeat split.
Qed.

(** X25: the raw JSON file is written exactly when no previous output is
    named, a file name that is not empty is given and the extraction
    returns; it then holds the extracted records as they are before the
    analysis, none with a summary, and it is written whether or not the
    analysis that follows ends with an exception. *)
Theorem raw_json_is_written_before_the_analysis
    (args : Args) (file : string) (conversation_data : list ConversationData) :
  let reviewed_username :=
    if negb (Py.truthy (args_reviewed_username args))
       && negb (Py.truthy (args_reviewer_username args))
    then Some REVIEWED_USERNAME
    else args_reviewed_username args in
  (raw_json (run_main args) = Some (file, conversation_data)
   <-> Py.truthy (args_gitlab_previous_output args) = false
       /\ args_raw_json_file args = Some file
       /\ file <> EmptyString
       /\ extract_gitlab_conversations git_diff_run convert_time_format
            set_order project_web_url (args_reviewer_username args)
            reviewed_username
            (mergerequests_list
               (if Py.truthy reviewed_username then reviewed_username
                else None))
          = Ok conversation_data)
  /\ (raw_json (run_main args) = Some (file, conversation_data) ->
      Forall fresh_record conversation_data).
Proof.
  intros reviewed_username.
  assert (Hiff :
    raw_json (run_main args) = Some (file, conversation_data)
    <-> Py.truthy (args_gitlab_previous_output args) = false
        /\ args_raw_json_file args = Some file
        /\ file <> EmptyString
        /\ extract_gitlab_conversations git_diff_run convert_time_format
             set_order project_web_url (args_reviewer_username args)
             reviewed_username
             (mergerequests_list
                (if Py.truthy reviewed_username then reviewed_username
                 else None))
           = Ok conversation_data).
  { subst reviewed_username. unfold run_main, main. cbn zeta.
    set (reviewed := if negb (Py.truthy (args_reviewed_username args))
                        && negb (Py.truthy (args_reviewer_username args))
                     then Some REVIEWED_USERNAME
                     else args_reviewed_username args).
    destruct (args_gitlab_previous_output args) as [[|c rest]|];
      cbn [Py.truthy].
    - destruct (extract_gitlab_conversations git_diff_run convert_time_format
                  set_order project_web_url (args_reviewer_username args)
                  reviewed
                  (mergerequests_list
                     (if Py.truthy reviewed then reviewed else None)))
        as [cd|e0].
      + destruct (analyze_wanted (args_analyze args)); cbn [raw_json];
          (destruct (args_raw_json_file args) as [[|c rest]|];
           (split;
            [ intros H; try discriminate H; injection H as <- <-;
              repeat split; discriminate
            | intros (_ & Hf & Hn & Hx);
              try discriminate Hf; injection Hf as <-; injection Hx as <-;
              try reflexivity; elim Hn; reflexivity ])).
      + cbn [raw_json]. split; [discriminate|].
        intros (_ & _ & _ & Hx). discriminate Hx.
    - destruct (analyze_wanted (args_analyze args)); cbn [raw_json];
        (split; [discriminate | intros (H & _); discriminate H]).
    - destruct (extract_gitlab_conversations git_diff_run convert_time_format
                  set_order project_web_url (args_reviewer_username args)
                  reviewed
                  (mergerequests_list
                     (if Py.truthy reviewed then reviewed else None)))
        as [cd|e0].
      + destruct (analyze_wanted (args_analyze args)); cbn [raw_json];
          (destruct (args_raw_json_file args) as [[|c rest]|];
           (split;
            [ intros H; try discriminate H; injection H as <- <-;
              repeat split; discriminate
            | intros (_ & Hf & Hn & Hx);
              try discriminate Hf; injection Hf as <-; injection Hx as <-;
              try reflexivity; elim Hn; reflexivity ])).
      + cbn [raw_json]. split; [discriminate|].
        intros (_ & _ & _ & Hx). discriminate Hx. }
  split; [exact Hiff|].
  intros H. apply Hiff in H. destruct H as (_ & _ & _ & Hx).
  revert Hx. unfold extract_gitlab_conversations.
  apply while_pages_fresh. constructor.
Qed.

End MainFacts.

Lemma analyze_option_text_runs_the_analysis_witness :
  main git_fails keep_time listed_order example_url "C" one_page no_file
    completion_fails exn_text (set_analyze (Some "False") online_args)
  = main git_fails keep_time listed_order example_url "C" one_page no_file
      completion_fails exn_text (set_analyze None online_args).
Proof.
  apply (proj1 (analyze_option_text_runs_the_analysis git_fails keep_time
                  listed_order example_url "C" one_page no_file
                  completion_fails exn_text online_args) "False").
  discriminate.
Defined.

Lemma unreadable_previous_output_gives_empty_table_witness :
  let run := main git_fails keep_time listed_order example_url "C" one_page
               no_file completion_fails exn_text offline_args in
  load_error run = Some "Error loading JSON file: No such file or directory"
  /\ raw_json run = None
  /\ main_raised run = None.
Proof.
  destruct (unreadable_previous_output_gives_empty_table git_fails keep_time
              listed_order example_url "C" one_page no_file completion_fails
              exn_text offline_args "previous.json"
              (Exception "No such file or directory") eq_refl
              ltac:(discriminate) eq_refl) as (H1 & H2 & H3 & _).
  split; [exact H1|]. split; [exact H2 | exact H3].
Defined.
